(** * Secure unlock hook and PID issuance flow of the wallet

    A shallow embedding of

    - [_useSecureUnlockState] and the callbacks it hands out
      (packages/secure-store/secure-wallet-key/SecureUnlockProvider.tsx), and
    - [ReceivePidUseCaseCFlow.retrieveCredentials],

    followed by the properties the specification states about them. *)

From Stdlib Require Import String List Bool Arith Lia.
Import ListNotations.
Open Scope string_scope.
Open Scope nat_scope.
Open Scope list_scope.

(** ** JavaScript values shared by both parts *)

(** How an awaited call or an async function ends: it returns a value or it
    throws.  [E] is the type of thrown values. *)
Inductive Completion (E A : Type) : Type :=
| Returned (a : A)
| Threw (e : E).
Arguments Returned {E A} a.
Arguments Threw {E A} e.

(** A value of type [string | null | undefined]. *)
Inductive MaybeString : Type :=
| Str (s : string)
| Null
| Undefined.

(** JavaScript truthiness of such a value: the empty string, [null] and
    [undefined] are falsy. *)
Definition truthy (v : MaybeString) : bool :=
  match v with
  | Str s => negb (s =? "")%string
  | Null | Undefined => false
  end.

(** ** The secure unlock hook *)
Module SecureUnlock.

Inductive SecureUnlockState : Type :=
| initializing
| not_configured
| locked
| acquired_wallet_key
| unlocked.

Inductive SecureUnlockMethod : Type :=
| pin
| biometrics.

(** What the keychain wrapper throws.  The hook only tells a [KeychainError]
    with its [reason] from anything else. *)
Inductive JsError : Type :=
| KeychainError (reason : string)
| Error (message : string).

(** [error instanceof KeychainError && error.reason === 'userCancelled'] *)
Definition isUserCancelled (error : JsError) : bool :=
  match error with
  | KeychainError reason => (reason =? "userCancelled")%string
  | Error _ => false
  end.

Section Hook.

(** [Context extends Record<string, unknown>]: an object, hence always truthy. *)
Variable Context : Type.
(** The result type and the result of [secureWalletKey.getWalletKeyVersion()]. *)
Variable Version : Type.
Variable getWalletKeyVersion : Version.

(** The eight [useState] cells of [_useSecureUnlockState].  A cell declared
    with [useState<T>()] holds [T | undefined]; the attempt counter is a
    JavaScript number that only ever starts at 0 and grows by one. *)
Record HookState : Type := mkHook {
  state : SecureUnlockState;
  walletKey : option string;
  canTryUnlockingUsingBiometrics : bool;
  biometricsUnlockAttempts : nat;
  canUseBiometrics : option bool;
  unlockMethod : option SecureUnlockMethod;
  context : option Context;
  isUnlocking : bool
}.

(** The initial values handed to [useState]. *)
Definition useStateInitial : HookState :=
  mkHook initializing None true 0 None None None false.

(** Calls into [secureWalletKey], the platform secret store. *)
Inductive StoreCall : Type :=
| getSalt (version : Version)
| canUseBiometryBackedWalletKey
| createAndStoreSalt (flag : bool) (version : Version)
| getWalletKeyUsingPin (pin : string) (version : Version)
| getWalletKeyUsingBiometrics (version : Version)
| storeWalletKey (walletKey : string) (version : Version).

(** One run of a callback: how it completed, the cells afterwards and the
    store calls it made, oldest first. *)
Record Run (A : Type) : Type := mkRun {
  completion : Completion JsError A;
  cells : HookState;
  storeCalls : list StoreCall
}.
Arguments mkRun {A}.
Arguments completion {A}.
Arguments cells {A}.
Arguments storeCalls {A}.

(** A callback body: it acts on the current cells. *)
Definition Async (A : Type) : Type := HookState -> Run A.

Definition ret {A} (a : A) : Async A :=
  fun s => mkRun (Returned a) s [].

Definition throw {A} (e : JsError) : Async A :=
  fun s => mkRun (Threw e) s [].

Definition bind {A B} (m : Async A) (k : A -> Async B) : Async B :=
  fun s =>
    let r := m s in
    match completion r with
    | Returned a =>
        let r' := k a (cells r) in
        mkRun (completion r') (cells r') (storeCalls r ++ storeCalls r')
    | Threw e => mkRun (Threw e) (cells r) (storeCalls r)
    end.

(** [await secureWalletKey.f(...)]: the call is recorded, its outcome [res]
    is whatever the store answers. *)
Definition await {A} (call : StoreCall) (res : Completion JsError A) : Async A :=
  fun s => mkRun res s [call].

(** [try { m } catch (error) { h error }] *)
Definition tryCatch {A} (m : Async A) (h : JsError -> Async A) : Async A :=
  fun s =>
    let r := m s in
    match completion r with
    | Returned _ => r
    | Threw e =>
        let r' := h e (cells r) in
        mkRun (completion r') (cells r') (storeCalls r ++ storeCalls r')
    end.

(** [try { m } finally { f }]: [f] always runs; the completion of [m] stands
    unless [f] itself throws. *)
Definition tryFinally {A} (m : Async A) (f : Async unit) : Async A :=
  fun s =>
    let r := m s in
    let r' := f (cells r) in
    mkRun (match completion r' with
           | Returned _ => completion r
           | Threw e => Threw e
           end)
          (cells r') (storeCalls r ++ storeCalls r').

Definition when (b : bool) (m : Async unit) : Async unit :=
  if b then m else ret tt.

Notation "x <- m ;; k" := (bind m (fun x => k))
  (at level 61, m at next level, right associativity).
Notation "m ;; k" := (bind m (fun _ => k))
  (at level 61, right associativity).

(** The state setters.  A setter records the new value of its cell; the
    render that follows is [_useSecureUnlockState] applied to the cells the
    callback leaves.  Where a root re-renders inside a setter that is called
    after an [await], a render that throws would throw out of that setter.
    The only cells a callback can leave whose render throws are those of
    ['acquired-wallet-key'] with an empty wallet key, reached when
    [getWalletKeyUsingPin] hands back the empty string; what [unlockUsingPin]
    and [setup] return is therefore stated below for non-empty keys only. *)
Definition set (f : HookState -> HookState) : Async unit :=
  fun s => mkRun (Returned tt) (f s) [].

Definition setState (v : SecureUnlockState) : Async unit :=
  set (fun s => mkHook v (walletKey s) (canTryUnlockingUsingBiometrics s)
    (biometricsUnlockAttempts s) (canUseBiometrics s) (unlockMethod s)
    (context s) (isUnlocking s)).

Definition setWalletKey (v : option string) : Async unit :=
  set (fun s => mkHook (state s) v (canTryUnlockingUsingBiometrics s)
    (biometricsUnlockAttempts s) (canUseBiometrics s) (unlockMethod s)
    (context s) (isUnlocking s)).

Definition setCanTryUnlockingUsingBiometrics (v : bool) : Async unit :=
  set (fun s => mkHook (state s) (walletKey s) v
    (biometricsUnlockAttempts s) (canUseBiometrics s) (unlockMethod s)
    (context s) (isUnlocking s)).

(** The only setter called with an updater function: the updater sees the
    current cell, not the value a callback captured. *)
Definition setBiometricsUnlockAttempts (upd : nat -> nat) : Async unit :=
  set (fun s => mkHook (state s) (walletKey s) (canTryUnlockingUsingBiometrics s)
    (upd (biometricsUnlockAttempts s)) (canUseBiometrics s) (unlockMethod s)
    (context s) (isUnlocking s)).

Definition setCanUseBiometrics (v : option bool) : Async unit :=
  set (fun s => mkHook (state s) (walletKey s) (canTryUnlockingUsingBiometrics s)
    (biometricsUnlockAttempts s) v (unlockMethod s)
    (context s) (isUnlocking s)).

Definition setUnlockMethod (v : option SecureUnlockMethod) : Async unit :=
  set (fun s => mkHook (state s) (walletKey s) (canTryUnlockingUsingBiometrics s)
    (biometricsUnlockAttempts s) (canUseBiometrics s) v
    (context s) (isUnlocking s)).

Definition setContext (v : option Context) : Async unit :=
  set (fun s => mkHook (state s) (walletKey s) (canTryUnlockingUsingBiometrics s)
    (biometricsUnlockAttempts s) (canUseBiometrics s) (unlockMethod s)
    v (isUnlocking s)).

Definition setIsUnlocking (v : bool) : Async unit :=
  set (fun s => mkHook (state s) (walletKey s) (canTryUnlockingUsingBiometrics s)
    (biometricsUnlockAttempts s) (canUseBiometrics s) (unlockMethod s)
    (context s) v).

(** [setWalletKey(walletKey)] stores a string; it is only reached with a
    truthy [walletKey]. *)
Definition asString (v : MaybeString) : option string :=
  match v with
  | Str s => Some s
  | Null | Undefined => None
  end.

Definition isBiometrics (m : SecureUnlockMethod) : bool :=
  match m with
  | biometrics => true
  | pin => false
  end.

(** [canUseBiometrics && options.enableBiometrics]; [undefined] is falsy. *)
Definition canStore (canUse : option bool) (enableBiometrics : bool) : bool :=
  match canUse with
  | Some true => enableBiometrics
  | Some false | None => false
  end.

(** The [queryFn] of the [useQuery] call; [saltRes] and [canUseRes] are the
    store's answers. *)
Definition queryFn (saltRes : Completion JsError MaybeString)
    (canUseRes : Completion JsError bool) : Async MaybeString :=
  salt <- await (getSalt getWalletKeyVersion) saltRes ;;
  canUse <- await canUseBiometryBackedWalletKey canUseRes ;;
  setCanUseBiometrics (Some canUse) ;;
  setCanTryUnlockingUsingBiometrics canUse ;;
  setState (if truthy salt then locked else not_configured) ;;
  ret salt.

Definition reinitialize : Async unit :=
  setState initializing ;;
  setWalletKey None ;;
  setCanTryUnlockingUsingBiometrics true ;;
  setBiometricsUnlockAttempts (fun _ => 0) ;;
  setCanUseBiometrics None ;;
  setUnlockMethod None ;;
  setContext None ;;
  setIsUnlocking false.

(** The callbacks of the ['acquired-wallet-key'] branch.  [theKey] and
    [method] are the narrowed [walletKey] and [unlockMethod] of the render
    that created the callback, [render] the cells of that render. *)
Definition setWalletKeyInvalid (method : SecureUnlockMethod) : Async unit :=
  when (isBiometrics method) (setCanTryUnlockingUsingBiometrics false) ;;
  setState locked ;;
  setWalletKey None ;;
  setUnlockMethod None.

Definition setWalletKeyValid (render : HookState) (theKey : string)
    (ctx : Context) (enableBiometrics : bool)
    (storeRes : Completion JsError unit) : Async unit :=
  setContext (Some ctx) ;;
  setState unlocked ;;
  when (canStore (canUseBiometrics render) enableBiometrics)
    (await (storeWalletKey theKey getWalletKeyVersion) storeRes).

(** The callback of the ['unlocked'] branch. *)
Definition lock : Async unit :=
  setState locked ;;
  setWalletKey None ;;
  setUnlockMethod None ;;
  setContext None.

(** The callbacks of the ['locked'] branch.  In
    [tryUnlockingUsingBiometrics] the names
    [canTryUnlockingUsingBiometrics] and [biometricsUnlockAttempts] are the
    constants bound by the render that created the callback ([render]); the
    updater passed to [setBiometricsUnlockAttempts] changes the cell, not
    that constant.  The [try] block yields [Some v] for [return v]; the
    [catch] block falls through to the final [return null]. *)
Definition tryUnlockingUsingBiometrics (render : HookState)
    (res : Completion JsError MaybeString) : Async MaybeString :=
  if negb (canTryUnlockingUsingBiometrics render) then ret Null
  else
    setIsUnlocking true ;;
    setBiometricsUnlockAttempts (fun attempts => attempts + 1) ;;
    early <- tryFinally
      (tryCatch
        (key <- await (getWalletKeyUsingBiometrics getWalletKeyVersion) res ;;
         when (truthy key)
           (setWalletKey (asString key) ;;
            setUnlockMethod (Some biometrics) ;;
            setState acquired_wallet_key) ;;
         ret (Some key))
        (fun error =>
           (if isUserCancelled error
            then setCanTryUnlockingUsingBiometrics false
            else if 3 <? biometricsUnlockAttempts render
            then setCanTryUnlockingUsingBiometrics false
            else ret tt) ;;
           ret None))
      (setIsUnlocking false) ;;
    match early with
    | Some key => ret key
    | None => ret Null
    end.

Definition unlockUsingPin (thePin : string)
    (res : Completion JsError string) : Async string :=
  setIsUnlocking true ;;
  tryFinally
    (key <- await (getWalletKeyUsingPin thePin getWalletKeyVersion) res ;;
     setWalletKey (Some key) ;;
     setUnlockMethod (Some pin) ;;
     setState acquired_wallet_key ;;
     ret key)
    (setIsUnlocking false).

(** The callback of the ['not-configured'] branch; it returns
    [{ walletKey }]. *)
Definition setup (thePin : string) (saltRes : Completion JsError unit)
    (keyRes : Completion JsError string) : Async string :=
  await (createAndStoreSalt true getWalletKeyVersion) saltRes ;;
  key <- await (getWalletKeyUsingPin thePin getWalletKeyVersion) keyRes ;;
  setWalletKey (Some key) ;;
  setUnlockMethod (Some pin) ;;
  setState acquired_wallet_key ;;
  ret key.

(** What one render of the hook returns: the state tag with the fields of
    that state.  The callbacks of each variant are listed by [invoke]. *)
Inductive SecureUnlockReturn : Type :=
| ReturnInitializing
| ReturnNotConfigured
| ReturnLocked (unlocking canTry : bool)
| ReturnWalletKeyAcquired (theKey : string) (method : SecureUnlockMethod)
| ReturnUnlocked (method : SecureUnlockMethod) (ctx : Context).

(** The branches of [_useSecureUnlockState] after the hooks have run.
    [!walletKey] holds for [undefined] and for the empty string. *)
Definition _useSecureUnlockState (s : HookState)
    : Completion JsError SecureUnlockReturn :=
  match state s with
  | acquired_wallet_key =>
      match walletKey s, unlockMethod s with
      | Some k, Some m =>
          if (k =? "")%string then Threw (Error "Missing walletKey or unlockMethod")
          else Returned (ReturnWalletKeyAcquired k m)
      | _, _ => Threw (Error "Missing walletKey or unlockMethod")
      end
  | unlocked =>
      match walletKey s, unlockMethod s, context s with
      | Some k, Some m, Some ctx =>
          if (k =? "")%string
          then Threw (Error "Missing walletKey, unlockMethod or context")
          else Returned (ReturnUnlocked m ctx)
      | _, _, _ => Threw (Error "Missing walletKey, unlockMethod or context")
      end
  | locked =>
      Returned (ReturnLocked (isUnlocking s) (canTryUnlockingUsingBiometrics s))
  | not_configured => Returned ReturnNotConfigured
  | initializing => Returned ReturnInitializing
  end.

(** A call of one of the callbacks, with the answers of the store calls it
    may make. *)
Inductive Call : Type :=
| Reinitialize
| Setup (thePin : string) (saltRes : Completion JsError unit)
    (keyRes : Completion JsError string)
| TryUnlockingUsingBiometrics (res : Completion JsError MaybeString)
| UnlockUsingPin (thePin : string) (res : Completion JsError string)
| SetWalletKeyValid (ctx : Context) (enableBiometrics : bool)
    (storeRes : Completion JsError unit)
| SetWalletKeyInvalid
| Lock.

(** What a callback resolves to. *)
Inductive Value : Type :=
| Void
| Key (v : MaybeString)
| WalletKey (k : string).

Definition resolving {A} (f : A -> Value) (m : Async A) : Async Value :=
  a <- m ;; ret (f a).

(** Calling a callback of the object the hook returned for the cells [s]:
    [None] when the render throws or the object of that state has no such
    callback.  The callback runs on the cells it was created from. *)
Definition invoke (c : Call) (s : HookState) : option (Run Value) :=
  match _useSecureUnlockState s with
  | Threw _ => None
  | Returned view =>
      match view, c with
      | ReturnNotConfigured, Reinitialize
      | ReturnLocked _ _, Reinitialize
      | ReturnWalletKeyAcquired _ _, Reinitialize
      | ReturnUnlocked _ _, Reinitialize =>
          Some (resolving (fun _ => Void) reinitialize s)
      | ReturnNotConfigured, Setup thePin saltRes keyRes =>
          Some (resolving WalletKey (setup thePin saltRes keyRes) s)
      | ReturnLocked _ _, TryUnlockingUsingBiometrics res =>
          Some (resolving Key (tryUnlockingUsingBiometrics s res) s)
      | ReturnLocked _ _, UnlockUsingPin thePin res =>
          Some (resolving WalletKey (unlockUsingPin thePin res) s)
      | ReturnWalletKeyAcquired k _, SetWalletKeyValid ctx enable storeRes =>
          Some (resolving (fun _ => Void)
                  (setWalletKeyValid s k ctx enable storeRes) s)
      | ReturnWalletKeyAcquired _ m, SetWalletKeyInvalid =>
          Some (resolving (fun _ => Void) (setWalletKeyInvalid m) s)
      | ReturnUnlocked _ _, Lock =>
          Some (resolving (fun _ => Void) lock s)
      | _, _ => None
      end
  end.

(** Something that happens to the hook: the query function runs (it is
    enabled only while [state === 'initializing']) or a consumer calls a
    callback. *)
Inductive Event : Type :=
| RunQuery (saltRes : Completion JsError MaybeString)
    (canUseRes : Completion JsError bool)
| Invoke (c : Call).

Definition step (e : Event) (s : HookState) : option (Run Value) :=
  match e with
  | RunQuery saltRes canUseRes =>
      match state s with
      | initializing => Some (resolving Key (queryFn saltRes canUseRes) s)
      | _ => None
      end
  | Invoke c => invoke c s
  end.

(** A sequence of events, each acting on the cells the previous one left;
    the result is the final cells and all store calls in order. *)
Fixpoint run (es : list Event) (s : HookState)
    : option (HookState * list StoreCall) :=
  match es with
  | [] => Some (s, [])
  | e :: es' =>
      match step e s with
      | None => None
      | Some r =>
          match run es' (cells r) with
          | None => None
          | Some (s', calls) => Some (s', storeCalls r ++ calls)
          end
      end
  end.

(** A biometric attempt that the store rejects with [err]. *)
Definition failedAttempt (err : JsError) : Event :=
  Invoke (TryUnlockingUsingBiometrics (Threw err)).

(** [keeps P m]: the callback body [m] preserves the property [P] of the
    cells, however the store answers. *)
Definition keeps (P : HookState -> Prop) {A} (m : Async A) : Prop :=
  forall s, P s -> P (cells (m s)).

(** [onlyCalls Q m]: every store call the callback body [m] makes
    satisfies [Q], whatever the cells and however the store answers. *)
Definition onlyCalls (Q : StoreCall -> Prop) {A} (m : Async A) : Prop :=
  forall s call, In call (storeCalls (m s)) -> Q call.

(** Outside ['initializing'] with biometrics revoked. *)
Definition revoked (s : HookState) : Prop :=
  state s <> initializing /\ canTryUnlockingUsingBiometrics s = false.

(** The cells after each event, as a function of the cells before and of
    the store's answers, read off the callbacks one by one.  [None] stands
    for an event that cannot happen in the state at hand.  [step_cells]
    below shows that [step] agrees with it. *)
Definition cellsAfter (e : Event) (s : HookState) : option HookState :=
  match e, state s with
  | RunQuery (Returned salt) (Returned canUse), initializing =>
      Some (mkHook (if truthy salt then locked else not_configured)
              (walletKey s) canUse (biometricsUnlockAttempts s) (Some canUse)
              (unlockMethod s) (context s) (isUnlocking s))
  | RunQuery _ _, initializing => Some s
  | Invoke Reinitialize, (not_configured | locked | acquired_wallet_key | unlocked) =>
      Some useStateInitial
  | Invoke (Setup _ (Returned _) (Returned key)), not_configured =>
      Some (mkHook acquired_wallet_key (Some key)
              (canTryUnlockingUsingBiometrics s) (biometricsUnlockAttempts s)
              (canUseBiometrics s) (Some pin) (context s) (isUnlocking s))
  | Invoke (Setup _ _ _), not_configured => Some s
  | Invoke (TryUnlockingUsingBiometrics res), locked =>
      if canTryUnlockingUsingBiometrics s then
        match res with
        | Returned v =>
            if truthy v
            then Some (mkHook acquired_wallet_key (asString v) true
                         (biometricsUnlockAttempts s + 1) (canUseBiometrics s)
                         (Some biometrics) (context s) false)
            else Some (mkHook locked (walletKey s) true
                         (biometricsUnlockAttempts s + 1) (canUseBiometrics s)
                         (unlockMethod s) (context s) false)
        | Threw err =>
            Some (mkHook locked (walletKey s)
                    (negb (isUserCancelled err
                           || (3 <? biometricsUnlockAttempts s)))
                    (biometricsUnlockAttempts s + 1) (canUseBiometrics s)
                    (unlockMethod s) (context s) false)
        end
      else Some s
  | Invoke (UnlockUsingPin _ (Returned key)), locked =>
      Some (mkHook acquired_wallet_key (Some key)
              (canTryUnlockingUsingBiometrics s) (biometricsUnlockAttempts s)
              (canUseBiometrics s) (Some pin) (context s) false)
  | Invoke (UnlockUsingPin _ (Threw _)), locked =>
      Some (mkHook locked (walletKey s)
              (canTryUnlockingUsingBiometrics s) (biometricsUnlockAttempts s)
              (canUseBiometrics s) (unlockMethod s) (context s) false)
  | Invoke (SetWalletKeyValid ctx _ _), acquired_wallet_key =>
      Some (mkHook unlocked (walletKey s)
              (canTryUnlockingUsingBiometrics s) (biometricsUnlockAttempts s)
              (canUseBiometrics s) (unlockMethod s) (Some ctx) (isUnlocking s))
  | Invoke SetWalletKeyInvalid, acquired_wallet_key =>
      Some (mkHook locked None
              (match unlockMethod s with
               | Some biometrics => false
               | _ => canTryUnlockingUsingBiometrics s
               end)
              (biometricsUnlockAttempts s)
              (canUseBiometrics s) None (context s) (isUnlocking s))
  | Invoke Lock, unlocked =>
      Some (mkHook locked None
              (canTryUnlockingUsingBiometrics s) (biometricsUnlockAttempts s)
              (canUseBiometrics s) None None (isUnlocking s))
  | _, _ => None
  end.

(** The store never hands back an empty key for a PIN in this event. *)
Definition nonEmptyPinKey (e : Event) : Prop :=
  match e with
  | Invoke (UnlockUsingPin _ (Returned key))
  | Invoke (Setup _ (Returned _) (Returned key)) => key <> ""
  | _ => True
  end.

(** [walletKey] is truthy: defined and not the empty string. *)
Definition hasKey (s : HookState) : Prop :=
  exists key, walletKey s = Some key /\ key <> "".

(** The cells hold what their state tag promises, and nothing else: no
    key, unlock method or context outside ['acquired-wallet-key'] and
    ['unlocked']; a truthy key and a method, and no context yet, in
    ['acquired-wallet-key']; all three in ['unlocked'].  No unlock is in
    progress. *)
Definition consistent (s : HookState) : Prop :=
  isUnlocking s = false
  /\ match state s with
     | initializing | not_configured | locked =>
         walletKey s = None /\ unlockMethod s = None /\ context s = None
     | acquired_wallet_key =>
         hasKey s /\ unlockMethod s <> None /\ context s = None
     | unlocked =>
         hasKey s /\ unlockMethod s <> None /\ context s <> None
     end.

End Hook.

Arguments cellsAfter {Context}.
Arguments nonEmptyPinKey {Context}.
Arguments hasKey {Context}.
Arguments consistent {Context}.
Arguments failedAttempt {Context}.
Arguments keeps {Context Version} P {A}.
Arguments onlyCalls {Context Version} Q {A}.
Arguments revoked {Context}.
Arguments mkHook {Context}.
Arguments state {Context}.
Arguments walletKey {Context}.
Arguments canTryUnlockingUsingBiometrics {Context}.
Arguments biometricsUnlockAttempts {Context}.
Arguments canUseBiometrics {Context}.
Arguments unlockMethod {Context}.
Arguments context {Context}.
Arguments isUnlocking {Context}.
Arguments useStateInitial {Context}.
Arguments getSalt {Version}.
Arguments canUseBiometryBackedWalletKey {Version}.
Arguments createAndStoreSalt {Version}.
Arguments getWalletKeyUsingPin {Version}.
Arguments getWalletKeyUsingBiometrics {Version}.
Arguments storeWalletKey {Version}.
Arguments mkRun {Context Version A}.
Arguments completion {Context Version A}.
Arguments cells {Context Version A}.
Arguments storeCalls {Context Version A}.
Arguments ret {Context Version A}.
Arguments throw {Context Version A}.
Arguments bind {Context Version A B}.
Arguments await {Context Version A}.
Arguments tryCatch {Context Version A}.
Arguments tryFinally {Context Version A}.
Arguments when {Context Version}.
Arguments set {Context Version}.
Arguments setState {Context Version}.
Arguments setWalletKey {Context Version}.
Arguments setCanTryUnlockingUsingBiometrics {Context Version}.
Arguments setBiometricsUnlockAttempts {Context Version}.
Arguments setCanUseBiometrics {Context Version}.
Arguments setUnlockMethod {Context Version}.
Arguments setContext {Context Version}.
Arguments setIsUnlocking {Context Version}.
Arguments queryFn {Context Version}.
Arguments reinitialize {Context Version}.
Arguments setWalletKeyInvalid {Context Version}.
Arguments setWalletKeyValid {Context Version}.
Arguments lock {Context Version}.
Arguments tryUnlockingUsingBiometrics {Context Version}.
Arguments unlockUsingPin {Context Version}.
Arguments setup {Context Version}.
Arguments ReturnInitializing {Context}.
Arguments ReturnNotConfigured {Context}.
Arguments ReturnLocked {Context}.
Arguments ReturnWalletKeyAcquired {Context}.
Arguments ReturnUnlocked {Context}.
Arguments _useSecureUnlockState {Context}.
Arguments Reinitialize {Context}.
Arguments Setup {Context}.
Arguments TryUnlockingUsingBiometrics {Context}.
Arguments UnlockUsingPin {Context}.
Arguments SetWalletKeyValid {Context}.
Arguments SetWalletKeyInvalid {Context}.
Arguments Lock {Context}.
Arguments resolving {Context Version A}.
Arguments invoke {Context Version}.
Arguments RunQuery {Context}.
Arguments Invoke {Context}.
Arguments step {Context Version}.
Arguments run {Context Version}.

End SecureUnlock.

(** ** The PID issuance flow, variant C *)
Module ReceivePid.

(** What can be thrown inside [retrieveCredentials].  The [catch] block only
    tells a [BiometricAuthenticationError] from anything else. *)
Inductive JsError : Type :=
| BiometricAuthenticationError
| Error (message : string).

(** [error instanceof BiometricAuthenticationError] *)
Definition isBiometricAuthenticationError (error : JsError) : bool :=
  match error with
  | BiometricAuthenticationError => true
  | Error _ => false
  end.

(** [try]-block sequencing: the first throw ends the block. *)
Definition andThen {A B} (m : Completion JsError A)
    (k : A -> Completion JsError B) : Completion JsError B :=
  match m with
  | Returned a => k a
  | Threw e => Threw e
  end.

Notation "x <- m ;; k" := (andThen m (fun x => k))
  (at level 61, m at next level, right associativity).
Notation "m ;; k" := (andThen m (fun _ => k))
  (at level 61, right associativity).

(** A credential record as far as the flow looks at it: its [type] tag. *)
Record CredentialRecord : Type := mkRecord {
  type : string;
  recordId : string
}.

Record OfferedCredential : Type := mkOffered {
  id : string
}.

Record ResolvedCredentialOffer : Type := mkOffer {
  offeredCredentials : list OfferedCredential
}.

(** Modelled from the spec: the phases of the flow, declared in the base
    class file ReceivePidUseCaseFlow, which is not part of the sources
    ([IssuanceFlowState]: NotStarted, Authorizing, AwaitingUserPresence
    (['id-card-auth']), RetrievingCredential (['retrieve-credential']),
    Error, Done with the credentials). *)
Inductive ReceivePidUseCaseState : Type :=
| not_started
| authorizing
| id_card_auth
| retrieve_credential
| error
| done (credentials : list CredentialRecord).

Definition sameState (a b : ReceivePidUseCaseState) : bool :=
  match a, b with
  | not_started, not_started
  | authorizing, authorizing
  | id_card_auth, id_card_auth
  | retrieve_credential, retrieve_credential
  | error, error
  | done _, done _ => true
  | _, _ => false
  end.

Section Flow.

(** The token response kept in [this.accessToken]: an object, truthy
    whenever it is defined. *)
Variable AccessToken : Type.
(** [ReceivePidUseCaseCFlow.CLIENT_ID], a static of the base class. *)
Variable CLIENT_ID : string.

(** The fields of a flow instance that [retrieveCredentials] reads, and the
    phase the base class keeps. *)
Record FlowInstance : Type := mkFlow {
  currentState : ReceivePidUseCaseState;
  accessToken : option AccessToken;
  resolvedCredentialOffer : ResolvedCredentialOffer
}.

(** The argument of [receiveCredentialFromOpenId4VciOffer] (the agent and
    the constant [pidSchemes] are the same in every call). *)
Record ReceiveRequest : Type := mkRequest {
  requestAccessToken : AccessToken;
  requestOffer : ResolvedCredentialOffer;
  credentialConfigurationIdsToRequest : list string;
  clientId : string
}.

(** The protocol client: what it answers to a request. *)
Definition Client : Type :=
  ReceiveRequest -> Completion JsError (list CredentialRecord).

(** Modelled from the spec: [assertState] of the absent base class, a
    contract check that fails fast if the flow is not in the expected phase
    and changes nothing. *)
Definition assertState (expectedState : ReceivePidUseCaseState)
    (this : FlowInstance) : Completion JsError unit :=
  if sameState (currentState this) expectedState then Returned tt
  else Threw (Error "Expected state does not match the current state").

(** Modelled from the spec: [handleError] of the absent base class; it
    centralizes the transition to the Error terminal state for
    non-recoverable failures and does not transition state for recoverable
    failures. *)
Definition handleError (err : JsError) (this : FlowInstance) : FlowInstance :=
  if isBiometricAuthenticationError err then this
  else mkFlow error (accessToken this) (resolvedCredentialOffer this).

(** [credentialRecord.type !== 'SdJwtVcRecord' &&
    credentialRecord.type !== 'MdocRecord'], and the [for] loop over the
    returned records: the first record of such a type throws. *)
Definition unexpectedType (credentialRecord : CredentialRecord) : bool :=
  negb (type credentialRecord =? "SdJwtVcRecord")%string
  && negb (type credentialRecord =? "MdocRecord")%string.

Fixpoint checkRecordTypes (credentialRecords : list CredentialRecord)
    : Completion JsError unit :=
  match credentialRecords with
  | [] => Returned tt
  | credentialRecord :: rest =>
      if unexpectedType credentialRecord
      then Threw (Error ("Unexpected record type " ++ type credentialRecord)%string)
      else checkRecordTypes rest
  end.

(** The object passed to [receiveCredentialFromOpenId4VciOffer]:
    [credentialConfigurationIdsToRequest] is the [id] of every offered
    credential. *)
Definition receiveRequest (this : FlowInstance) (token : AccessToken)
    : ReceiveRequest :=
  let credentialConfigurationIdsToRequest :=
    map id (offeredCredentials (resolvedCredentialOffer this)) in
  mkRequest token (resolvedCredentialOffer this)
    credentialConfigurationIdsToRequest CLIENT_ID.

Section WithErrorHandler.

(** [this.handleError]; [retrieveCredentials] is first defined over any
    handler, so that what it does without calling the handler does not
    depend on the model of the base class. *)
Variable onError : JsError -> FlowInstance -> FlowInstance.

(** The body of the [try] block. *)
Definition retrieveCredentialsTry (receive : Client) (this : FlowInstance)
    : Completion JsError (list CredentialRecord) :=
  assertState retrieve_credential this ;;
  match accessToken this with
  | None =>
      Threw (Error "Expected accessToken be defined in state retrieve-credential")
  | Some token =>
      credentialRecords <- receive (receiveRequest this token) ;;
      checkRecordTypes credentialRecords ;;
      Returned credentialRecords
  end.

(** [retrieveCredentials]: the completion of the call and the flow
    instance afterwards. *)
Definition retrieveCredentialsWith (receive : Client) (this : FlowInstance)
    : Completion JsError (list CredentialRecord) * FlowInstance :=
  match retrieveCredentialsTry receive this with
  | Returned credentialRecords => (Returned credentialRecords, this)
  | Threw err =>
      if isBiometricAuthenticationError err then (Threw err, this)
      else (Threw err, onError err this)
  end.

End WithErrorHandler.

Definition retrieveCredentials : Client -> FlowInstance ->
    Completion JsError (list CredentialRecord) * FlowInstance :=
  retrieveCredentialsWith handleError.

End Flow.

Arguments mkFlow {AccessToken}.
Arguments currentState {AccessToken}.
Arguments accessToken {AccessToken}.
Arguments resolvedCredentialOffer {AccessToken}.
Arguments mkRequest {AccessToken}.
Arguments requestAccessToken {AccessToken}.
Arguments requestOffer {AccessToken}.
Arguments credentialConfigurationIdsToRequest {AccessToken}.
Arguments clientId {AccessToken}.
Arguments assertState {AccessToken}.
Arguments handleError {AccessToken}.
Arguments receiveRequest {AccessToken}.
Arguments retrieveCredentialsTry {AccessToken}.
Arguments retrieveCredentialsWith {AccessToken}.
Arguments retrieveCredentials {AccessToken}.

End ReceivePid.

(** ** Sample inputs *)

(** A hook just initialized on a device with a salt and biometrics. *)
Definition sampleLocked : SecureUnlock.HookState string :=
  SecureUnlock.mkHook SecureUnlock.locked None true 0 (Some true) None None false.

(** A locked hook that has already seen two biometric attempts. *)
Definition sampleLockedLater : SecureUnlock.HookState string :=
  SecureUnlock.mkHook SecureUnlock.locked None true 2 (Some true) None None false.

(** A hook holding a key obtained with biometrics. *)
Definition sampleAcquired : SecureUnlock.HookState string :=
  SecureUnlock.mkHook SecureUnlock.acquired_wallet_key (Some "3f9a") true 1
    (Some true) (Some SecureUnlock.biometrics) None false.

(** A hook on a device without a salt, and an unlocked hook. *)
Definition sampleNotConfigured : SecureUnlock.HookState string :=
  SecureUnlock.mkHook SecureUnlock.not_configured None true 0 (Some true)
    None None false.

Definition sampleUnlocked : SecureUnlock.HookState string :=
  SecureUnlock.mkHook SecureUnlock.unlocked (Some "3f9a") false 5 (Some true)
    (Some SecureUnlock.pin) (Some "agent") false.

(** A locked hook on which biometrics has been revoked. *)
Definition sampleRevoked : SecureUnlock.HookState string :=
  SecureUnlock.mkHook SecureUnlock.locked None false 5 (Some true) None None
    false.

(** Four rejections, none of them a cancellation. *)
Definition sampleRejections : list SecureUnlock.JsError :=
  [SecureUnlock.KeychainError "authenticationFailed";
   SecureUnlock.KeychainError "authenticationFailed";
   SecureUnlock.Error "keychain unavailable";
   SecureUnlock.KeychainError "authenticationFailed"].

(** A flow in ['retrieve-credential'] holding token 7 for the two offered
    configurations of variant C. *)
Definition sampleFlow : ReceivePid.FlowInstance nat :=
  ReceivePid.mkFlow ReceivePid.retrieve_credential (Some 7)
    (ReceivePid.mkOffer
       [ReceivePid.mkOffered "pid-sd-jwt"; ReceivePid.mkOffered "pid-mso-mdoc"]).

Definition sampleRecords : list ReceivePid.CredentialRecord :=
  [ReceivePid.mkRecord "SdJwtVcRecord" "a1"; ReceivePid.mkRecord "MdocRecord" "b2"].

Definition sampleBadRecords : list ReceivePid.CredentialRecord :=
  [ReceivePid.mkRecord "SdJwtVcRecord" "a1";
   ReceivePid.mkRecord "W3cCredentialRecord" "c3"].

(** * Properties of the secure unlock hook *)
Section SecureUnlockProperties.

Import SecureUnlock.

Variables (Context Version : Type) (version : Version).
Implicit Types (s : HookState Context) (e : Event Context) (c : Call Context).
Local Abbreviation keeps :=
  (SecureUnlock.keeps (Context:=Context) (Version:=Version)).
Local Abbreviation onlyCalls :=
  (SecureUnlock.onlyCalls (Context:=Context) (Version:=Version)).

Ltac cells_cases s :=
  destruct s as [st wk ct at_ cu um cx iu];
  cbn [state walletKey canTryUnlockingUsingBiometrics biometricsUnlockAttempts
       canUseBiometrics unlockMethod context isUnlocking] in *;
  subst.

Ltac run_callback :=
  cbv [invoke step _useSecureUnlockState resolving
       tryUnlockingUsingBiometrics unlockUsingPin setup queryFn reinitialize
       setWalletKeyValid setWalletKeyInvalid lock
       bind ret await tryCatch tryFinally when set
       setState setWalletKey setCanTryUnlockingUsingBiometrics
       setBiometricsUnlockAttempts setCanUseBiometrics setUnlockMethod
       setContext setIsUnlocking
       completion cells storeCalls
       state walletKey canTryUnlockingUsingBiometrics biometricsUnlockAttempts
       canUseBiometrics unlockMethod context isUnlocking
       app] in *.

(** What a rejected biometric attempt does to a locked hook that may still
    try biometrics: the counter grows, and biometrics is revoked when the
    user cancelled or when the counter captured by the callback exceeds 3. *)
Lemma failedAttempt_locked s err :
  state s = locked ->
  canTryUnlockingUsingBiometrics s = true ->
  step version (failedAttempt err) s =
    Some (mkRun (Returned (Key Null))
            (mkHook locked (walletKey s)
               (negb (isUserCancelled err
                      || (3 <? biometricsUnlockAttempts s)))
               (biometricsUnlockAttempts s + 1) (canUseBiometrics s)
               (unlockMethod s) (context s) false)
            [getWalletKeyUsingBiometrics version]).
Proof.
  intros Hst Hcan. cells_cases s. unfold failedAttempt. run_callback.
  destruct (isUserCancelled err); [reflexivity|].
  destruct (3 <? at_); reflexivity.
Qed.

(** Once biometrics is revoked, the callback returns [null] at once. *)
Lemma attempt_when_revoked s res :
  state s = locked ->
  canTryUnlockingUsingBiometrics s = false ->
  step version (Invoke (TryUnlockingUsingBiometrics res)) s =
    Some (mkRun (Returned (Key Null)) s []).
Proof.
  intros Hst Hcan. cells_cases s. reflexivity.
Qed.

(** [run] over a concatenation. *)
Lemma run_app (es1 es2 : list (Event Context)) s :
  run version (es1 ++ es2) s =
    match run version es1 s with
    | None => None
    | Some (s1, calls1) =>
        match run version es2 s1 with
        | None => None
        | Some (s2, calls2) => Some (s2, calls1 ++ calls2)
        end
    end.
Proof.
  revert s. induction es1 as [|e es1 IH]; intros s; cbn [run app].
  - destruct (run version es2 s) as [[s2 calls2]|]; reflexivity.
  - destruct (step version e s) as [r|]; [|reflexivity].
    rewrite IH. destruct (run version es1 (cells r)) as [[s1 calls1]|]; [|reflexivity].
    destruct (run version es2 s1) as [[s2 calls2]|]; [|reflexivity].
    now rewrite app_assoc.
Qed.

(** Attempts on a locked hook whose biometrics is revoked change nothing
    and reach the store not at all. *)
Lemma attempts_when_revoked (errs : list SecureUnlock.JsError) s :
  state s = locked ->
  canTryUnlockingUsingBiometrics s = false ->
  run version (map failedAttempt errs) s = Some (s, []).
Proof.
  intros Hst Hcan. induction errs as [|err errs IH]; cbn [map run]; [reflexivity|].
  unfold failedAttempt at 1. rewrite (attempt_when_revoked _ _ Hst Hcan).
  cbn [cells storeCalls]. rewrite IH. reflexivity.
Qed.

(** The budget of rejected attempts as the code implements it: starting
    locked with biometrics allowed and a counter [n], a run of [k >= 1]
    attempts rejected for a reason other than cancellation leaves biometrics
    allowed exactly when [n + k <= 4]; the hook stays locked throughout, and
    the counter stops growing once biometrics is revoked. *)
Lemma rejected_attempts_budget (errs : list SecureUnlock.JsError) :
  forall s,
    state s = locked ->
    canTryUnlockingUsingBiometrics s = true ->
    Forall (fun err => isUserCancelled err = false) errs ->
    errs <> [] ->
    exists s' calls,
      run version (map failedAttempt errs) s = Some (s', calls)
      /\ state s' = locked
      /\ canTryUnlockingUsingBiometrics s'
         = (biometricsUnlockAttempts s + length errs <=? 4)
      /\ biometricsUnlockAttempts s'
         = Nat.min (biometricsUnlockAttempts s + length errs)
                   (Nat.max (biometricsUnlockAttempts s + 1) 5).
Proof.
  induction errs as [|err errs IH]; intros s Hst Hcan Hall Hne; [congruence|].
  inversion Hall as [|? ? Herr Hall']; subst.
  cbn [map run length].
  rewrite (failedAttempt_locked _ _ Hst Hcan), Herr.
  cbn [orb cells storeCalls].
  set (s1 := mkHook _ _ _ _ _ _ _ _).
  destruct (3 <? biometricsUnlockAttempts s) eqn:Hlt.
  - (* the captured counter already exceeds 3: revoked now, for good *)
    rewrite attempts_when_revoked by reflexivity.
    eexists _, _. split; [reflexivity|]. split; [reflexivity|].
    apply Nat.ltb_lt in Hlt. subst s1. cbn. split; [|lia].
    symmetry. apply Nat.leb_gt. lia.
  - apply Nat.ltb_ge in Hlt.
    destruct errs as [|err' errs'].
    + cbn [map run]. eexists _, _. split; [reflexivity|]. split; [reflexivity|].
      subst s1. cbn. split; [|lia]. symmetry. apply Nat.leb_le. lia.
    + destruct (IH s1) as (s' & calls & Hrun & Hst' & Hcan' & Hcount);
        [reflexivity|reflexivity|assumption|discriminate|].
      rewrite Hrun. eexists _, _. split; [reflexivity|]. split; [assumption|].
      rewrite Hcan', Hcount. subst s1.
      cbn [biometricsUnlockAttempts length]. split; [f_equal|]; lia.
Qed.

Section Keeps.

Variable P : HookState Context -> Prop.

Lemma keeps_ret {A} (a : A) : keeps P (ret a).
Proof. intros s H. exact H. Qed.

Lemma keeps_await {A} call (res : Completion SecureUnlock.JsError A) :
  keeps P (await call res).
Proof. intros s H. exact H. Qed.

Lemma keeps_bind {A B} (m : Async Context Version A)
    (k : A -> Async Context Version B) :
  keeps P m -> (forall a, keeps P (k a)) -> keeps P (bind m k).
Proof.
  intros Hm Hk s H. unfold bind. specialize (Hm s H).
  destruct (completion (m s)); cbn [cells]; [apply Hk|]; assumption.
Qed.

Lemma keeps_tryCatch {A} (m : Async Context Version A) h :
  keeps P m -> (forall err, keeps P (h err)) -> keeps P (tryCatch m h).
Proof.
  intros Hm Hh s H. unfold tryCatch. specialize (Hm s H).
  destruct (completion (m s)); cbn [cells]; [|apply Hh]; assumption.
Qed.

Lemma keeps_tryFinally {A} (m : Async Context Version A) f :
  keeps P m -> keeps P f -> keeps P (tryFinally m f).
Proof. intros Hm Hf s H. unfold tryFinally. cbn [cells]. auto. Qed.

Lemma keeps_when b m : keeps P m -> keeps P (when b m).
Proof. intros Hm. destruct b; [exact Hm|apply keeps_ret]. Qed.

Lemma keeps_resolving {A} (f : A -> Value) m :
  keeps P m -> keeps P (resolving f m).
Proof. intros Hm. apply keeps_bind; [exact Hm|intros; apply keeps_ret]. Qed.

End Keeps.

Ltac keeps_setter := intros [? ? ? ? ? ? ? ?] [? ?]; split; cbn in *; congruence.

Lemma revoked_setState st : st <> initializing -> keeps revoked (setState st).
Proof. intros Hst [? ? ? ? ? ? ? ?] [? ?]; split; cbn in *; congruence. Qed.

Lemma revoked_setWalletKey v : keeps revoked (setWalletKey v).
Proof. keeps_setter. Qed.

Lemma revoked_setCanTry_false :
  keeps revoked (setCanTryUnlockingUsingBiometrics false).
Proof. keeps_setter. Qed.

Lemma revoked_setBiometricsUnlockAttempts upd :
  keeps revoked (setBiometricsUnlockAttempts upd).
Proof. keeps_setter. Qed.

Lemma revoked_setUnlockMethod v : keeps revoked (setUnlockMethod v).
Proof. keeps_setter. Qed.

Lemma revoked_setContext v : keeps revoked (setContext v).
Proof. keeps_setter. Qed.

Lemma revoked_setIsUnlocking v : keeps revoked (setIsUnlocking v).
Proof. keeps_setter. Qed.

Ltac keeps_body :=
  repeat first
    [ apply keeps_resolving
    | apply keeps_bind; [|intros]
    | apply keeps_tryFinally
    | apply keeps_tryCatch; [|intros]
    | apply keeps_when
    | apply keeps_ret
    | apply keeps_await
    | apply revoked_setState; discriminate
    | apply revoked_setWalletKey
    | apply revoked_setCanTry_false
    | apply revoked_setBiometricsUnlockAttempts
    | apply revoked_setUnlockMethod
    | apply revoked_setContext
    | apply revoked_setIsUnlocking
    | match goal with
      | |- keeps _ (if ?b then _ else _) => destruct b
      | |- keeps _ (match ?x with _ => _ end) => destruct x
      end ].

(** No callback other than [reinitialize] gives biometrics back or returns
    the hook to ['initializing'] (where the query function would set the
    flag again). *)
Lemma callbacks_keep_revoked c s r :
  invoke version c s = Some r ->
  c <> Reinitialize ->
  revoked s -> revoked (cells r).
Proof.
  unfold invoke. intros Hinv Hne.
  destruct (_useSecureUnlockState s) as [[]|]; destruct c;
    try discriminate; try congruence;
    injection Hinv as <-; intros Hs;
    match goal with
    | |- revoked (cells (resolving ?f ?body s)) =>
        apply (keeps_resolving revoked f body); [|exact Hs]
    end.
  all: unfold setup, tryUnlockingUsingBiometrics, unlockUsingPin,
         setWalletKeyValid, setWalletKeyInvalid, lock; keeps_body.
Qed.

Lemma step_keeps_revoked e s r :
  step version e s = Some r ->
  e <> Invoke Reinitialize ->
  revoked s -> revoked (cells r).
Proof.
  intros Hstep Hne Hs. destruct e as [saltRes canUseRes|c]; cbn [step] in Hstep.
  - destruct Hs as [Hst _]. destruct (state s); congruence.
  - apply (callbacks_keep_revoked c s r); trivial. congruence.
Qed.

Lemma run_keeps_revoked (es : list (Event Context)) :
  forall s s' calls,
    run version es s = Some (s', calls) ->
    ~ In (Invoke Reinitialize) es ->
    revoked s -> revoked s'.
Proof.
  induction es as [|e es IH]; intros s s' calls Hrun Hnot Hs.
  - cbn in Hrun. injection Hrun as <- _. exact Hs.
  - cbn [run] in Hrun.
    destruct (step version e s) as [r|] eqn:Hstep; [|discriminate].
    destruct (run version es (cells r)) as [[s1 calls1]|] eqn:Hrest; [|discriminate].
    injection Hrun as <- _.
    apply (IH _ _ _ Hrest).
    + intros Hin. apply Hnot. now right.
    + apply (step_keeps_revoked e s r); trivial.
      intros ->. apply Hnot. now left.
Qed.

(** C1, as the code behaves (the claim puts the revocation one attempt
    earlier): on a freshly initialized locked hook (biometrics allowed,
    counter 0), four consecutive biometric attempts that the store rejects
    for a reason other than cancellation leave
    [canTryUnlockingUsingBiometrics] true, because each callback compares
    the counter captured by its render, which is the count before the
    attempt, with 3; only a fifth rejected attempt sets it to false, and
    from then on it stays false through every sequence of events without
    a [reinitialize]. *)
Theorem four_rejected_attempts_keep_biometrics
    (errs : list SecureUnlock.JsError) s :
  state s = locked ->
  canTryUnlockingUsingBiometrics s = true ->
  biometricsUnlockAttempts s = 0 ->
  length errs = 4 ->
  Forall (fun err => isUserCancelled err = false) errs ->
  exists s4 calls4,
    run version (map failedAttempt errs) s = Some (s4, calls4)
    /\ state s4 = locked
    /\ canTryUnlockingUsingBiometrics s4 = true
    /\ biometricsUnlockAttempts s4 = 4
    /\ forall err, isUserCancelled err = false ->
        exists s5 calls5,
          run version [failedAttempt err] s4 = Some (s5, calls5)
          /\ state s5 = locked
          /\ canTryUnlockingUsingBiometrics s5 = false
          /\ forall es s' calls',
               ~ In (Invoke Reinitialize) es ->
               run version es s5 = Some (s', calls') ->
               canTryUnlockingUsingBiometrics s' = false.
Proof.
  intros Hst Hcan Hzero Hlen Hall.
  destruct (rejected_attempts_budget errs s) as (s4 & calls4 & Hrun & Hst4 & Hcan4 & Hn4);
    trivial.
  { intros ->. discriminate. }
  rewrite Hzero, Hlen in Hcan4, Hn4. cbn in Hcan4, Hn4.
  exists s4, calls4. repeat split; trivial.
  intros err Herr.
  destruct (rejected_attempts_budget [err] s4) as (s5 & calls5 & Hrun5 & Hst5 & Hcan5 & _);
    trivial.
  { constructor; [assumption|constructor]. }
  { discriminate. }
  rewrite Hn4 in Hcan5. cbn in Hcan5.
  exists s5, calls5. repeat split; trivial.
  intros es s' calls' Hnot Hes.
  apply (run_keeps_revoked es s5 s' calls' Hes Hnot).
  split; [congruence|assumption].
Qed.

(** C4: a biometric attempt from the locked state with biometrics allowed
    that the store rejects with reason [userCancelled] sets
    [canTryUnlockingUsingBiometrics] to false whatever the attempt counter
    is, resolves to [null], and leaves the hook locked (with [isUnlocking]
    back to false and the counter one higher). *)
Theorem userCancelled_revokes_biometrics s :
  state s = locked ->
  canTryUnlockingUsingBiometrics s = true ->
  invoke version
    (TryUnlockingUsingBiometrics (Threw (KeychainError "userCancelled"))) s =
    Some (mkRun (Returned (Key Null))
            (mkHook locked (walletKey s) false
               (biometricsUnlockAttempts s + 1) (canUseBiometrics s)
               (unlockMethod s) (context s) false)
            [getWalletKeyUsingBiometrics version]).
Proof.
  intros Hst Hcan.
  exact (failedAttempt_locked s (KeychainError "userCancelled") Hst Hcan).
Qed.

(** C10: a biometric attempt from the locked state with biometrics allowed
    for which the store completes without throwing but hands back no key
    ([null] or [undefined]) resolves to that same absent value; the hook
    stays locked, the attempt counter is one higher, and
    [canTryUnlockingUsingBiometrics] is still true, whatever the counter
    was. *)
Theorem absent_key_keeps_biometrics s (absent : MaybeString) :
  state s = locked ->
  canTryUnlockingUsingBiometrics s = true ->
  absent = Null \/ absent = Undefined ->
  invoke version (TryUnlockingUsingBiometrics (Returned absent)) s =
    Some (mkRun (Returned (Key absent))
            (mkHook locked (walletKey s) true
               (biometricsUnlockAttempts s + 1) (canUseBiometrics s)
               (unlockMethod s) (context s) false)
            [getWalletKeyUsingBiometrics version]).
Proof.
  intros Hst Hcan Habs. cells_cases s.
  destruct Habs; subst absent; run_callback; reflexivity.
Qed.

(** C6: [unlockUsingPin] from the locked state.  If the store's PIN-based
    retrieval throws, the error reaches the caller and the hook stays
    locked; if it returns a key (a wallet key is not the empty string), the
    hook is in ['acquired-wallet-key'] with that key and unlock method
    [pin], and the key is returned.  In both cases [isUnlocking] is false
    afterwards. *)
Theorem unlockUsingPin_outcomes s (thePin : string) :
  state s = locked ->
  (forall err,
     invoke version (UnlockUsingPin thePin (Threw err)) s =
       Some (mkRun (Threw err)
               (mkHook locked (walletKey s) (canTryUnlockingUsingBiometrics s)
                  (biometricsUnlockAttempts s) (canUseBiometrics s)
                  (unlockMethod s) (context s) false)
               [getWalletKeyUsingPin thePin version]))
  /\ (forall key,
     key <> "" ->
     invoke version (UnlockUsingPin thePin (Returned key)) s =
       Some (mkRun (Returned (WalletKey key))
               (mkHook acquired_wallet_key (Some key)
                  (canTryUnlockingUsingBiometrics s)
                  (biometricsUnlockAttempts s) (canUseBiometrics s)
                  (Some pin) (context s) false)
               [getWalletKeyUsingPin thePin version])).
Proof.
  intros Hst. cells_cases s. split; intros; run_callback; reflexivity.
Qed.

(** C7: [setWalletKeyInvalid], called on the object the hook returns in
    ['acquired-wallet-key'], leaves the hook locked with the wallet key and
    the unlock method cleared; if the key had been acquired with biometrics
    [canTryUnlockingUsingBiometrics] is false afterwards, and with a PIN it
    is unchanged. *)
Theorem setWalletKeyInvalid_locks s (theKey : string) (method : SecureUnlockMethod) :
  _useSecureUnlockState s = Returned (ReturnWalletKeyAcquired theKey method) ->
  exists r,
    invoke version SetWalletKeyInvalid s = Some r
    /\ completion r = Returned Void
    /\ state (cells r) = locked
    /\ walletKey (cells r) = None
    /\ unlockMethod (cells r) = None
    /\ (method = biometrics ->
        canTryUnlockingUsingBiometrics (cells r) = false)
    /\ (method = pin ->
        canTryUnlockingUsingBiometrics (cells r)
        = canTryUnlockingUsingBiometrics s)
    /\ storeCalls r = [].
Proof.
  intros Hview. unfold invoke. rewrite Hview.
  eexists. split; [reflexivity|].
  destruct method; run_callback; cbn; repeat split; congruence.
Qed.

(** What the cells hold when the hook returns the ['acquired-wallet-key']
    object. *)
Lemma acquired_view_inv s (theKey : string) (method : SecureUnlockMethod) :
  _useSecureUnlockState s = Returned (ReturnWalletKeyAcquired theKey method) ->
  state s = acquired_wallet_key
  /\ walletKey s = Some theKey
  /\ unlockMethod s = Some method
  /\ (theKey =? "")%string = false.
Proof.
  unfold _useSecureUnlockState.
  destruct (state s); try discriminate.
  - destruct (walletKey s) as [k|]; [|discriminate].
    destruct (unlockMethod s) as [m|]; [|discriminate].
    destruct (k =? "")%string eqn:Hk; [discriminate|].
    intros [= <- <-]. auto.
  - destruct (walletKey s) as [k|]; [|discriminate].
    destruct (unlockMethod s) as [m|]; [|discriminate].
    destruct (context s); [|discriminate].
    destruct (k =? "")%string; discriminate.
Qed.

(** The store calls of [setWalletKeyValid]. *)
Lemma setWalletKeyValid_calls s (theKey : string) (method : SecureUnlockMethod)
    (ctx : Context) (enable : bool) storeRes :
  _useSecureUnlockState s = Returned (ReturnWalletKeyAcquired theKey method) ->
  exists r,
    invoke version (SetWalletKeyValid ctx enable storeRes) s = Some r
    /\ storeCalls r =
         if canStore (canUseBiometrics s) enable
         then [storeWalletKey theKey version] else [].
Proof.
  intros Hview. unfold invoke. rewrite Hview.
  eexists. split; [reflexivity|].
  run_callback. destruct (canStore _ enable); [destruct storeRes|]; reflexivity.
Qed.

Section OnlyCalls.

Variable Q : StoreCall Version -> Prop.

Lemma onlyCalls_ret {A} (a : A) : onlyCalls Q (ret a).
Proof. intros s call []. Qed.

Lemma onlyCalls_set f : onlyCalls Q (set f).
Proof. intros s call []. Qed.

Lemma onlyCalls_await {A} call (res : Completion SecureUnlock.JsError A) :
  Q call -> onlyCalls Q (await call res).
Proof. intros HQ s call' [<-|[]]. exact HQ. Qed.

Lemma onlyCalls_bind {A B} (m : Async Context Version A)
    (k : A -> Async Context Version B) :
  onlyCalls Q m -> (forall a, onlyCalls Q (k a)) -> onlyCalls Q (bind m k).
Proof.
  intros Hm Hk s call. unfold bind.
  destruct (completion (m s)); cbn [storeCalls].
  - intros Hin. apply in_app_or in Hin as [Hin|Hin];
      [exact (Hm s call Hin)|exact (Hk a _ call Hin)].
  - apply Hm.
Qed.

Lemma onlyCalls_tryCatch {A} (m : Async Context Version A) h :
  onlyCalls Q m -> (forall err, onlyCalls Q (h err)) ->
  onlyCalls Q (tryCatch m h).
Proof.
  intros Hm Hh s call. unfold tryCatch.
  destruct (completion (m s)); cbn [storeCalls].
  - apply Hm.
  - intros Hin. apply in_app_or in Hin as [Hin|Hin];
      [exact (Hm s call Hin)|exact (Hh e _ call Hin)].
Qed.

Lemma onlyCalls_tryFinally {A} (m : Async Context Version A) f :
  onlyCalls Q m -> onlyCalls Q f -> onlyCalls Q (tryFinally m f).
Proof.
  intros Hm Hf s call. unfold tryFinally. cbn [storeCalls].
  intros Hin. apply in_app_or in Hin as [Hin|Hin];
    [exact (Hm s call Hin)|exact (Hf _ call Hin)].
Qed.

Lemma onlyCalls_when b m : onlyCalls Q m -> onlyCalls Q (when b m).
Proof. intros Hm. destruct b; [exact Hm|apply onlyCalls_ret]. Qed.

Lemma onlyCalls_resolving {A} (f : A -> Value) m :
  onlyCalls Q m -> onlyCalls Q (resolving f m).
Proof. intros Hm. apply onlyCalls_bind; [exact Hm|intros; apply onlyCalls_ret]. Qed.

End OnlyCalls.

Ltac onlyCalls_body :=
  repeat first
    [ apply onlyCalls_resolving
    | apply onlyCalls_bind; [|intros]
    | apply onlyCalls_tryFinally
    | apply onlyCalls_tryCatch; [|intros]
    | apply onlyCalls_when
    | apply onlyCalls_ret
    | apply onlyCalls_set
    | apply onlyCalls_await
    | match goal with
      | |- SecureUnlock.onlyCalls _ (if ?b then _ else _) => destruct b
      | |- SecureUnlock.onlyCalls _ (match ?x with _ => _ end) => destruct x
      end ].

Ltac unfold_callbacks :=
  unfold setup, tryUnlockingUsingBiometrics, unlockUsingPin, queryFn,
    reinitialize, setWalletKeyValid, setWalletKeyInvalid, lock,
    setState, setWalletKey, setCanTryUnlockingUsingBiometrics,
    setBiometricsUnlockAttempts, setCanUseBiometrics, setUnlockMethod,
    setContext, setIsUnlocking.

(** Only [setWalletKeyValid] with [enableBiometrics = true] can reach
    [storeWalletKey]. *)
Lemma storeWalletKey_only_from_setWalletKeyValid e s r key ver :
  step version e s = Some r ->
  In (storeWalletKey key ver) (storeCalls r) ->
  exists ctx storeRes, e = Invoke (SetWalletKeyValid ctx true storeRes).
Proof.
  intros Hstep Hin.
  pose (notStoreWalletKey := fun call : StoreCall Version =>
          forall key' ver', call <> storeWalletKey key' ver').
  assert (Hquiet : forall m : Async Context Version Value,
             onlyCalls notStoreWalletKey m -> r = m s -> False).
  { intros m Hm ->. exact (Hm s _ Hin key ver eq_refl). }
  destruct e as [saltRes canUseRes|c]; cbn [step] in Hstep.
  - destruct (state s); try discriminate. injection Hstep as Hr.
    exfalso. eapply Hquiet; [|symmetry; exact Hr].
    unfold_callbacks; onlyCalls_body; discriminate.
  - unfold invoke in Hstep.
    destruct (_useSecureUnlockState s) as [[]|]; destruct c;
      try discriminate; injection Hstep as Hr.
    all: try solve [exfalso; eapply Hquiet; [|symmetry; exact Hr];
                    unfold_callbacks; onlyCalls_body; discriminate].
    destruct enableBiometrics; [eauto|].
    exfalso. eapply Hquiet; [|symmetry; exact Hr].
    unfold_callbacks.
    destruct (canUseBiometrics s) as [[]|]; cbn [canStore when];
      onlyCalls_body; discriminate.
Qed.

(** C5: [setWalletKeyValid], called on the object the hook returns in
    ['acquired-wallet-key'], asks the store to persist the wallet key
    ([storeWalletKey]) if and only if [canUseBiometrics] is true and the
    caller passed [enableBiometrics = true], and makes no other store call;
    in particular there is no persistence call with
    [enableBiometrics = false].  No other event of the hook (any other
    callback, the query function) makes a [storeWalletKey] call. *)
Theorem storeWalletKey_iff_enabled s (theKey : string)
    (method : SecureUnlockMethod) :
  _useSecureUnlockState s = Returned (ReturnWalletKeyAcquired theKey method) ->
  (forall (ctx : Context) (enable : bool) storeRes,
     exists r,
       invoke version (SetWalletKeyValid ctx enable storeRes) s = Some r
       /\ (In (storeWalletKey theKey version) (storeCalls r)
           <-> canUseBiometrics s = Some true /\ enable = true)
       /\ (forall call, In call (storeCalls r) ->
             call = storeWalletKey theKey version)
       /\ (enable = false -> storeCalls r = []))
  /\ (forall e s0 r key ver,
        step version e s0 = Some r ->
        In (storeWalletKey key ver) (storeCalls r) ->
        exists ctx storeRes, e = Invoke (SetWalletKeyValid ctx true storeRes)).
Proof.
  intros Hview. split.
  - intros ctx enable storeRes.
    destruct (setWalletKeyValid_calls s theKey method ctx enable storeRes Hview)
      as (r & Hinv & Hcalls).
    exists r. split; [exact Hinv|]. rewrite Hcalls.
    destruct (canUseBiometrics s) as [[]|], enable; cbn;
      repeat split; intros; intuition congruence.
  - intros e s0 r key ver.
    apply storeWalletKey_only_from_setWalletKeyValid.
Qed.

(** C9: [setWalletKeyValid] sets the context and the state ['unlocked']
    before it awaits [storeWalletKey]; so when that store call throws, the
    error reaches the caller and the hook is nevertheless unlocked with
    the caller's context: the next render returns the ['unlocked']
    object. *)
Theorem setWalletKeyValid_store_failure s (theKey : string)
    (method : SecureUnlockMethod) (ctx : Context) (err : SecureUnlock.JsError) :
  _useSecureUnlockState s = Returned (ReturnWalletKeyAcquired theKey method) ->
  canUseBiometrics s = Some true ->
  exists r,
    invoke version (SetWalletKeyValid ctx true (Threw err)) s = Some r
    /\ completion r = Threw err
    /\ storeCalls r = [storeWalletKey theKey version]
    /\ state (cells r) = unlocked
    /\ context (cells r) = Some ctx
    /\ _useSecureUnlockState (cells r) = Returned (ReturnUnlocked method ctx).
Proof.
  intros Hview Hcan.
  destruct (acquired_view_inv s theKey method Hview) as (Hst & Hkey & Hm & Hne).
  unfold invoke. rewrite Hview. eexists. split; [reflexivity|].
  cells_cases s. run_callback. cbn. rewrite Hne. repeat split.
Qed.

(** C8, amended: the hook hands out [reinitialize] in every state in which
    its render succeeds except ['initializing'], whose object has no
    callbacks.  Wherever it is called it resets all eight cells to their
    initial values (state ['initializing'], no wallet key, no unlock
    method, no context, counter 0, [canTryUnlockingUsingBiometrics] true,
    [canUseBiometrics] undefined, [isUnlocking] false) without touching
    the store, and running it again on the result changes nothing. *)
Theorem reinitialize_resets s :
  (forall view,
     _useSecureUnlockState s = Returned view ->
     view <> ReturnInitializing ->
     invoke version Reinitialize s =
       Some (mkRun (Returned Void) useStateInitial []))
  /\ reinitialize (Version:=Version) s = mkRun (Returned tt) useStateInitial []
  /\ reinitialize (Version:=Version) (cells (reinitialize (Version:=Version) s))
     = reinitialize (Version:=Version) s
  /\ (state s = initializing -> invoke version Reinitialize s = None).
Proof.
  repeat split.
  - intros view Hview Hne. unfold invoke. rewrite Hview.
    destruct view; try congruence; reflexivity.
  - intros Hst. unfold invoke, _useSecureUnlockState. rewrite Hst. reflexivity.
Qed.

(** ** What each event does, case by case *)

(** The state tag of the cells behind each returned object. *)
Lemma view_state s view :
  _useSecureUnlockState s = Returned view ->
  state s =
    match view with
    | ReturnInitializing => initializing
    | ReturnNotConfigured => not_configured
    | ReturnLocked _ _ => locked
    | ReturnWalletKeyAcquired _ _ => acquired_wallet_key
    | ReturnUnlocked _ _ => unlocked
    end.
Proof.
  unfold _useSecureUnlockState.
  destruct (state s); try (intros [= <-]; reflexivity).
  - destruct (walletKey s) as [k|]; [|discriminate].
    destruct (unlockMethod s); [|discriminate].
    destruct (k =? "")%string; [discriminate|]. intros [= <-]. reflexivity.
  - destruct (walletKey s) as [k|]; [|discriminate].
    destruct (unlockMethod s); [|discriminate].
    destruct (context s); [|discriminate].
    destruct (k =? "")%string; [discriminate|]. intros [= <-]. reflexivity.
Qed.

(** Every event that can happen leaves the cells [cellsAfter] gives. *)
Lemma step_cells e s r :
  step version e s = Some r -> cellsAfter e s = Some (cells r).
Proof.
  intros Hstep. destruct e as [saltRes canUseRes|c]; cbn [step] in Hstep.
  - unfold cellsAfter. destruct (state s) eqn:Hst; try discriminate.
    injection Hstep as <-. cells_cases s.
    destruct saltRes as [salt|]; [destruct canUseRes|]; reflexivity.
  - unfold invoke in Hstep.
    destruct (_useSecureUnlockState s) as [view|] eqn:Hview; [|discriminate].
    pose proof (view_state s view Hview) as Hst.
    destruct view, c; try discriminate; injection Hstep as <-;
      unfold cellsAfter; rewrite Hst; try reflexivity.
    + cells_cases s.
      destruct saltRes as [[]|]; [destruct keyRes|]; reflexivity.
    + cells_cases s. destruct ct; [|reflexivity].
      destruct res as [[[|a k]| |]|err]; try reflexivity.
      pose proof (failedAttempt_locked (mkHook locked wk true at_ cu um cx iu)
                    err eq_refl eq_refl) as H.
      cbv [step failedAttempt invoke _useSecureUnlockState state] in H.
      injection H as H. rewrite H. reflexivity.
    + cells_cases s. destruct res; reflexivity.
    + cells_cases s.
      destruct cu as [[]|], enableBiometrics, storeRes; reflexivity.
    + apply acquired_view_inv in Hview as (_ & _ & Hm & _).
      cells_cases s. destruct method; reflexivity.
Qed.

(** ** Further properties of the callbacks *)

(** X1: [lock], called on the object the hook returns in ['unlocked'],
    leaves the hook locked with the wallet key, the unlock method and the
    context cleared; the biometric flags and the attempt counter are as
    before and the store is not contacted. *)
Theorem lock_clears_secrets s (method : SecureUnlockMethod) (ctx : Context) :
  _useSecureUnlockState s = Returned (ReturnUnlocked method ctx) ->
  invoke version Lock s =
    Some (mkRun (Returned Void)
            (mkHook locked None (canTryUnlockingUsingBiometrics s)
               (biometricsUnlockAttempts s) (canUseBiometrics s)
               None None (isUnlocking s))
            []).
Proof.
  intros Hview. unfold invoke. rewrite Hview. reflexivity.
Qed.

(** X2: [setup] from ['not-configured'].  If creating the salt throws, the
    error reaches the caller, the cells are unchanged and no key is
    requested.  If the salt was created but the key retrieval throws, the
    error reaches the caller and the cells are unchanged, although the salt
    has been created.  If both succeed, with a key that is not the empty
    string, the hook is in ['acquired-wallet-key'] with the key and unlock
    method [pin], and the key is returned. *)
Theorem setup_outcomes s (thePin : string) :
  state s = not_configured ->
  (forall err keyRes,
     invoke version (Setup thePin (Threw err) keyRes) s =
       Some (mkRun (Threw err) s [createAndStoreSalt true version]))
  /\ (forall err,
     invoke version (Setup thePin (Returned tt) (Threw err)) s =
       Some (mkRun (Threw err) s
               [createAndStoreSalt true version;
                getWalletKeyUsingPin thePin version]))
  /\ (forall key,
     key <> "" ->
     invoke version (Setup thePin (Returned tt) (Returned key)) s =
       Some (mkRun (Returned (WalletKey key))
               (mkHook acquired_wallet_key (Some key)
                  (canTryUnlockingUsingBiometrics s)
                  (biometricsUnlockAttempts s) (canUseBiometrics s)
                  (Some pin) (context s) (isUnlocking s))
               [createAndStoreSalt true version;
                getWalletKeyUsingPin thePin version])).
Proof.
  intros Hst. cells_cases s. repeat split; intros; run_callback; reflexivity.
Qed.

(** X3: the query function.  It runs only in ['initializing'].  When the
    store answers both questions, [canUseBiometrics] and
    [canTryUnlockingUsingBiometrics] both become the device capability and
    the state becomes ['locked'] for a truthy salt and ['not-configured']
    for a missing or empty one; nothing else changes.  When either store
    call throws the cells are left as they were. *)
Theorem queryFn_outcomes s saltRes canUseRes :
  (state s <> initializing -> step version (RunQuery saltRes canUseRes) s = None)
  /\ (state s = initializing ->
      exists r,
        step version (RunQuery saltRes canUseRes) s = Some r
        /\ match saltRes, canUseRes with
           | Returned salt, Returned canUse =>
               completion r = Returned (Key salt)
               /\ cells r =
                    mkHook (if truthy salt then locked else not_configured)
                      (walletKey s) canUse (biometricsUnlockAttempts s)
                      (Some canUse) (unlockMethod s) (context s)
                      (isUnlocking s)
               /\ storeCalls r =
                    [getSalt version; canUseBiometryBackedWalletKey]
           | Returned _, Threw err =>
               completion r = Threw err /\ cells r = s
               /\ storeCalls r =
                    [getSalt version; canUseBiometryBackedWalletKey]
           | Threw err, _ =>
               completion r = Threw err /\ cells r = s
               /\ storeCalls r = [getSalt version]
           end).
Proof.
  split; intros Hst.
  - cbn [step]. destruct (state s); congruence.
  - cbn [step]. rewrite Hst. eexists. split; [reflexivity|].
    cells_cases s.
    destruct saltRes as [salt|err]; [destruct canUseRes as [canUse|err]|];
      run_callback; repeat split.
Qed.

(** X4: a biometric attempt from the locked state with biometrics allowed
    for which the store returns a non-empty key puts the hook in
    ['acquired-wallet-key'] with that key and unlock method [biometrics],
    and returns the key; the attempt counter is one higher, [isUnlocking]
    is false and biometrics stays allowed. *)
Theorem biometric_unlock_succeeds s (key : string) :
  state s = locked ->
  canTryUnlockingUsingBiometrics s = true ->
  key <> "" ->
  invoke version (TryUnlockingUsingBiometrics (Returned (Str key))) s =
    Some (mkRun (Returned (Key (Str key)))
            (mkHook acquired_wallet_key (Some key) true
               (biometricsUnlockAttempts s + 1) (canUseBiometrics s)
               (Some biometrics) (context s) false)
            [getWalletKeyUsingBiometrics version]).
Proof.
  intros Hst Hcan Hkey. cells_cases s.
  destruct key as [|a key']; [congruence|]. reflexivity.
Qed.

(** X5: an empty key from the biometric retrieval counts as no key: the
    empty string is returned to the caller, but the hook stays locked and
    keeps no key; only the attempt counter moves. *)
Theorem biometric_empty_key_stays_locked s :
  state s = locked ->
  canTryUnlockingUsingBiometrics s = true ->
  invoke version (TryUnlockingUsingBiometrics (Returned (Str ""))) s =
    Some (mkRun (Returned (Key (Str "")))
            (mkHook locked (walletKey s) true
               (biometricsUnlockAttempts s + 1) (canUseBiometrics s)
               (unlockMethod s) (context s) false)
            [getWalletKeyUsingBiometrics version]).
Proof.
  intros Hst Hcan. cells_cases s. reflexivity.
Qed.

(** X7: with biometrics revoked, [tryUnlockingUsingBiometrics] returns
    [null] at once: the store is not contacted, the attempt counter does
    not move and the cells are exactly as before, whatever the store would
    have answered. *)
Theorem revoked_attempt_is_noop s res :
  state s = locked ->
  canTryUnlockingUsingBiometrics s = false ->
  invoke version (TryUnlockingUsingBiometrics res) s =
    Some (mkRun (Returned (Key Null)) s []).
Proof.
  intros Hst Hcan. cells_cases s. reflexivity.
Qed.

(** X16: [tryUnlockingUsingBiometrics] never throws: whatever the store
    does, the call returns, and it returns [null] unless the store itself
    returned a value; a store error is not passed on to the caller. *)
Theorem biometric_attempt_never_throws s res r :
  invoke version (TryUnlockingUsingBiometrics res) s = Some r ->
  exists v,
    completion r = Returned (Key v)
    /\ (v = Null \/ res = Returned v).
Proof.
  unfold invoke. intros Hinv.
  destruct (_useSecureUnlockState s) as [view|] eqn:Hview; [|discriminate].
  pose proof (view_state s view Hview) as Hst.
  destruct view; try discriminate. injection Hinv as <-.
  destruct (canTryUnlockingUsingBiometrics s) eqn:Hcan.
  - destruct res as [v|err].
    + exists v. split; [|now right].
      cells_cases s. destruct v as [[|a k]| |]; reflexivity.
    + exists Null. split; [|now left].
      pose proof (failedAttempt_locked s err Hst Hcan) as H.
      unfold failedAttempt in H. cbn [step] in H. unfold invoke in H.
      rewrite Hview in H. injection H as ->. reflexivity.
  - exists Null. split; [|now left]. cells_cases s. reflexivity.
Qed.

(** ** Properties of every event *)

(** Case analysis on an event that happened, through [step_cells]: one goal
    per event and state in which it can happen, with the cells afterwards
    spelled out. *)
Ltac event_cases Hstep :=
  apply step_cells in Hstep; unfold cellsAfter in Hstep;
  repeat match type of Hstep with
         | context [match ?x with _ => _ end] =>
             destruct x eqn:?; try discriminate
         end;
  injection Hstep as Hstep.

(** X8: for the query function and for every callback that is called on
    the object of the latest render and runs to completion before anything
    else happens, the state changes only along the edges of the state
    machine.  The
    hook becomes ['unlocked'] only from ['acquired-wallet-key'] and only
    through [setWalletKeyValid]; it becomes ['acquired-wallet-key'] only
    from ['locked'] or ['not-configured']; it never returns to
    ['not-configured'] except from ['initializing']; it never becomes
    ['locked'] straight from ['not-configured']; and it is
    ['initializing'] again only through [reinitialize]. *)
Theorem state_transitions e s r :
  step version e s = Some r ->
  match state (cells r) with
  | unlocked =>
      state s = acquired_wallet_key
      /\ exists ctx enable storeRes,
           e = Invoke (SetWalletKeyValid ctx enable storeRes)
  | acquired_wallet_key => state s = locked \/ state s = not_configured
  | locked => state s <> not_configured
  | not_configured => state s = initializing \/ state s = not_configured
  | initializing => state s = initializing \/ e = Invoke Reinitialize
  end.
Proof.
  intros Hstep. event_cases Hstep; rewrite <- Hstep;
    cbn [state useStateInitial];
    repeat match goal with
           | H : state s = _ |- _ => rewrite H
           end;
    solve [auto | discriminate | split; eauto].
Qed.

(** The invariant [consistent] is kept by every event in which the store
    hands back no empty key for a PIN. *)
Lemma step_consistent e s r :
  step version e s = Some r -> nonEmptyPinKey e ->
  consistent s -> consistent (cells r).
Proof.
  intros Hstep Hkey [Hrest Hs]. event_cases Hstep; rewrite <- Hstep;
    repeat match goal with
           | H : state s = _ |- _ => rewrite H in Hs
           end;
    destruct Hs as (Hk & Hm & Hc);
    unfold consistent, hasKey;
    cbn [state walletKey unlockMethod context isUnlocking useStateInitial];
    repeat match goal with
           | H : state s = _ |- _ => rewrite H
           end;
    cbn [nonEmptyPinKey] in Hkey;
    try solve [repeat split; trivial; try discriminate; eauto].
  destruct a as [k| |]; try discriminate. cbn [truthy asString] in *.
  repeat split; trivial; try discriminate.
  exists k. split; [reflexivity|]. intros ->. discriminate.
Qed.

(** Consistent cells always render. *)
Lemma consistent_renders s :
  consistent s -> exists view, _useSecureUnlockState s = Returned view.
Proof.
  intros [_ Hs]. unfold _useSecureUnlockState.
  destruct (state s); try (eexists; reflexivity).
  - destruct Hs as ((k & -> & Hk) & Hm & _).
    destruct (unlockMethod s); [|congruence].
    apply String.eqb_neq in Hk. rewrite Hk. eexists; reflexivity.
  - destruct Hs as ((k & -> & Hk) & Hm & Hc).
    destruct (unlockMethod s); [|congruence].
    destruct (context s); [|congruence].
    apply String.eqb_neq in Hk. rewrite Hk. eexists; reflexivity.
Qed.

(** X9: take any sequence of events from the initial cells in which every
    callback is called on the object of the latest render and runs to
    completion before the next event, and in which the store hands back no
    empty key for a PIN.  Then the cells match their state tag: there is no
    wallet key, unlock method or context in memory while the hook is
    initializing, not configured or locked; a non-empty key and a method
    are present in ['acquired-wallet-key'], and a context too in
    ['unlocked']; [isUnlocking] is false; and the render of those cells
    does not throw. *)
Theorem reachable_cells_consistent (es : list (Event Context)) s calls :
  Forall nonEmptyPinKey es ->
  run version es useStateInitial = Some (s, calls) ->
  consistent s /\ exists view, _useSecureUnlockState s = Returned view.
Proof.
  assert (Hgen : forall es s0 s1 calls1,
             Forall nonEmptyPinKey es ->
             consistent s0 -> run version es s0 = Some (s1, calls1) ->
             consistent s1).
  { clear. induction es as [|e es IH]; intros s0 s1 calls1 Hkeys H0 Hrun.
    - cbn in Hrun. injection Hrun as <- _. exact H0.
    - cbn [run] in Hrun. inversion Hkeys as [|? ? Hkey Hkeys']; subst.
      destruct (step version e s0) as [r|] eqn:Hstep; [|discriminate].
      destruct (run version es (cells r)) as [[s2 calls2]|] eqn:Hrest;
        [|discriminate].
      injection Hrun as <- _.
      apply (IH _ _ _ Hkeys' (step_consistent _ _ _ Hstep Hkey H0) Hrest). }
  intros Hkeys Hrun.
  assert (Hs : consistent s).
  { apply (Hgen es useStateInitial s calls Hkeys); [|exact Hrun].
    repeat split. }
  split; [exact Hs|apply consistent_renders; exact Hs].
Qed.

(** X10: the attempt counter counts biometric prompts and nothing else:
    an event other than [reinitialize] either leaves it as it was or is a
    [tryUnlockingUsingBiometrics] call made while biometrics was allowed,
    which adds exactly one, whether the prompt succeeds or not. *)
Theorem counter_moves_only_on_attempts e s r :
  step version e s = Some r ->
  e <> Invoke Reinitialize ->
  biometricsUnlockAttempts (cells r) = biometricsUnlockAttempts s
  \/ (biometricsUnlockAttempts (cells r) = biometricsUnlockAttempts s + 1
      /\ canTryUnlockingUsingBiometrics s = true
      /\ exists res, e = Invoke (TryUnlockingUsingBiometrics res)).
Proof.
  intros Hstep Hne. event_cases Hstep; rewrite <- Hstep;
    cbn [biometricsUnlockAttempts];
    solve [auto | congruence | right; eauto].
Qed.

(** X11: [canUseBiometrics], the device capability found at
    initialization, is changed by no callback other than [reinitialize]:
    in particular a failed or cancelled biometric unlock revokes
    [canTryUnlockingUsingBiometrics] but leaves [canUseBiometrics] as it
    was, so the key can still be stored later. *)
Theorem callbacks_leave_canUseBiometrics c s r :
  invoke version c s = Some r ->
  c <> Reinitialize ->
  canUseBiometrics (cells r) = canUseBiometrics s.
Proof.
  intros Hinv Hne.
  assert (Hstep : step version (Invoke c) s = Some r) by exact Hinv.
  event_cases Hstep; rewrite <- Hstep; cbn [canUseBiometrics];
    solve [reflexivity | congruence].
Qed.

(** X12: once [canTryUnlockingUsingBiometrics] is false outside
    ['initializing'], it is false after every sequence of events that
    contains no [reinitialize], and the hook does not come back to
    ['initializing'] on its own. *)
Theorem revocation_lasts_until_reinitialize (es : list (Event Context))
    s s' calls :
  state s <> initializing ->
  canTryUnlockingUsingBiometrics s = false ->
  ~ In (Invoke Reinitialize) es ->
  run version es s = Some (s', calls) ->
  state s' <> initializing /\ canTryUnlockingUsingBiometrics s' = false.
Proof.
  intros Hst Hcan Hnot Hrun.
  exact (run_keeps_revoked es s s' calls Hrun Hnot (conj Hst Hcan)).
Qed.

(** X13: the budget of rejected biometric attempts as implemented.  On a
    locked hook with biometrics allowed and attempt counter [n], after
    [k >= 1] consecutive attempts that the store rejects for a reason
    other than cancellation, biometrics is still allowed exactly when
    [n + k <= 4]; the hook is still locked. *)
Theorem rejected_attempts_threshold (errs : list SecureUnlock.JsError) s :
  state s = locked ->
  canTryUnlockingUsingBiometrics s = true ->
  Forall (fun err => isUserCancelled err = false) errs ->
  errs <> [] ->
  exists s' calls,
    run version (map failedAttempt errs) s = Some (s', calls)
    /\ state s' = locked
    /\ (canTryUnlockingUsingBiometrics s' = true
        <-> biometricsUnlockAttempts s + length errs <= 4).
Proof.
  intros Hst Hcan Hall Hne.
  destruct (rejected_attempts_budget errs s Hst Hcan Hall Hne)
    as (s' & calls & Hrun & Hst' & Hcan' & _).
  exists s', calls. split; [exact Hrun|]. split; [exact Hst'|].
  rewrite Hcan'. apply Nat.leb_le.
Qed.

(** X14: rejecting a key that was obtained with biometrics switches
    biometrics off: after [setWalletKeyInvalid] the next
    [tryUnlockingUsingBiometrics] returns without asking the store, and
    the hook is locked with no key in memory. *)
Theorem rejected_biometric_key_stops_prompts s (theKey : string) res :
  _useSecureUnlockState s = Returned (ReturnWalletKeyAcquired theKey biometrics) ->
  exists s',
    run version
      [Invoke SetWalletKeyInvalid; Invoke (TryUnlockingUsingBiometrics res)] s
      = Some (s', [])
    /\ state s' = locked
    /\ walletKey s' = None
    /\ canTryUnlockingUsingBiometrics s' = false.
Proof.
  intros Hview. cbn [run step]. unfold invoke at 1. rewrite Hview.
  cbn [resolving]. cells_cases s. eexists. split; [reflexivity|].
  repeat split.
Qed.

(** X15: [reinitialize] followed by a query whose store calls succeed is
    the way back from every state the hook renders except
    ['initializing']: whatever had been revoked or counted, the hook is
    then locked (not configured without a salt) with the attempt counter
    at 0, no key in memory, and [canTryUnlockingUsingBiometrics] equal to
    the device capability. *)
Theorem reinitialize_then_query_restores s view (salt : MaybeString)
    (canUse : bool) :
  _useSecureUnlockState s = Returned view ->
  view <> ReturnInitializing ->
  run version
    [Invoke Reinitialize; RunQuery (Returned salt) (Returned canUse)] s
    = Some (mkHook (if truthy salt then locked else not_configured)
              None canUse 0 (Some canUse) None None false,
            [getSalt version; canUseBiometryBackedWalletKey]).
Proof.
  intros Hview Hne. cbn [run step]. unfold invoke. rewrite Hview.
  destruct view; try congruence; reflexivity.
Qed.

End SecureUnlockProperties.

(** Instances on the sample inputs. *)

Lemma four_rejected_attempts_keep_biometrics_witness :
  exists s4 calls4,
    SecureUnlock.run 1 (map SecureUnlock.failedAttempt sampleRejections)
      sampleLocked = Some (s4, calls4)
    /\ SecureUnlock.canTryUnlockingUsingBiometrics s4 = true
    /\ SecureUnlock.biometricsUnlockAttempts s4 = 4.
Proof.
  destruct (four_rejected_attempts_keep_biometrics string nat 1
              sampleRejections sampleLocked)
    as (s4 & calls4 & Hrun & _ & Hcan & Hcount & _);
    [reflexivity|reflexivity|reflexivity|reflexivity| |].
  - repeat constructor.
  - exists s4, calls4. auto.
Defined.

Lemma userCancelled_revokes_biometrics_witness :
  SecureUnlock.invoke 1
    (SecureUnlock.TryUnlockingUsingBiometrics
       (Threw (SecureUnlock.KeychainError "userCancelled")))
    sampleLockedLater =
  Some (SecureUnlock.mkRun (Returned (SecureUnlock.Key Null))
          (SecureUnlock.mkHook SecureUnlock.locked None false 3 (Some true)
             None None false)
          [SecureUnlock.getWalletKeyUsingBiometrics 1]).
Proof.
  apply (userCancelled_revokes_biometrics string nat 1 sampleLockedLater);
    reflexivity.
Defined.

Lemma absent_key_keeps_biometrics_witness :
  SecureUnlock.invoke 1
    (SecureUnlock.TryUnlockingUsingBiometrics (Returned Undefined))
    sampleLockedLater =
  Some (SecureUnlock.mkRun (Returned (SecureUnlock.Key Undefined))
          (SecureUnlock.mkHook SecureUnlock.locked None true 3 (Some true)
             None None false)
          [SecureUnlock.getWalletKeyUsingBiometrics 1]).
Proof.
  apply (absent_key_keeps_biometrics string nat 1 sampleLockedLater Undefined);
    [reflexivity|reflexivity|right; reflexivity].
Defined.

Lemma unlockUsingPin_outcomes_witness :
  SecureUnlock.invoke 1
    (SecureUnlock.UnlockUsingPin "0000"
       (Threw (SecureUnlock.Error "invalid pin")))
    sampleLocked =
  Some (SecureUnlock.mkRun (Threw (SecureUnlock.Error "invalid pin"))
          sampleLocked [SecureUnlock.getWalletKeyUsingPin "0000" 1])
  /\ SecureUnlock.invoke 1
       (SecureUnlock.UnlockUsingPin "1234" (Returned "3f9a")) sampleLocked =
     Some (SecureUnlock.mkRun (Returned (SecureUnlock.WalletKey "3f9a"))
             (SecureUnlock.mkHook SecureUnlock.acquired_wallet_key
                (Some "3f9a") true 0 (Some true) (Some SecureUnlock.pin)
                None false)
             [SecureUnlock.getWalletKeyUsingPin "1234" 1]).
Proof.
  split.
  - apply (proj1 (unlockUsingPin_outcomes string nat 1 sampleLocked "0000"
                    eq_refl)).
  - apply (proj2 (unlockUsingPin_outcomes string nat 1 sampleLocked "1234"
                    eq_refl)).
    discriminate.
Defined.

Lemma setWalletKeyInvalid_locks_witness :
  exists r,
    SecureUnlock.invoke 1 SecureUnlock.SetWalletKeyInvalid sampleAcquired
      = Some r
    /\ SecureUnlock.state (SecureUnlock.cells r) = SecureUnlock.locked
    /\ SecureUnlock.walletKey (SecureUnlock.cells r) = None
    /\ SecureUnlock.canTryUnlockingUsingBiometrics (SecureUnlock.cells r)
       = false.
Proof.
  destruct (setWalletKeyInvalid_locks string nat 1 sampleAcquired "3f9a"
              SecureUnlock.biometrics eq_refl)
    as (r & Hinv & _ & Hst & Hkey & _ & Hbio & _).
  exists r. repeat split; auto.
Defined.

Lemma storeWalletKey_iff_enabled_witness :
  exists r,
    SecureUnlock.invoke 1
      (SecureUnlock.SetWalletKeyValid "ctx" true (Returned tt)) sampleAcquired
      = Some r
    /\ In (SecureUnlock.storeWalletKey "3f9a" 1) (SecureUnlock.storeCalls r).
Proof.
  destruct (proj1 (storeWalletKey_iff_enabled string nat 1 sampleAcquired
                     "3f9a" SecureUnlock.biometrics eq_refl)
              "ctx" true (Returned tt))
    as (r & Hinv & Hiff & _).
  exists r. split; [exact Hinv|]. apply Hiff. split; reflexivity.
Defined.

Lemma setWalletKeyValid_store_failure_witness :
  exists r,
    SecureUnlock.invoke 1
      (SecureUnlock.SetWalletKeyValid "ctx" true
         (Threw (SecureUnlock.Error "keychain write failed")))
      sampleAcquired = Some r
    /\ SecureUnlock.completion r
       = Threw (SecureUnlock.Error "keychain write failed")
    /\ SecureUnlock.state (SecureUnlock.cells r) = SecureUnlock.unlocked.
Proof.
  destruct (setWalletKeyValid_store_failure string nat 1 sampleAcquired "3f9a"
              SecureUnlock.biometrics "ctx"
              (SecureUnlock.Error "keychain write failed") eq_refl eq_refl)
    as (r & Hinv & Hthrow & _ & Hst & _).
  exists r. auto.
Defined.

Lemma reinitialize_resets_witness :
  SecureUnlock.invoke 1 SecureUnlock.Reinitialize sampleAcquired =
  Some (SecureUnlock.mkRun (Returned SecureUnlock.Void)
          SecureUnlock.useStateInitial []).
Proof.
  apply (proj1 (reinitialize_resets string nat 1 sampleAcquired)
           (SecureUnlock.ReturnWalletKeyAcquired "3f9a" SecureUnlock.biometrics));
    [reflexivity|discriminate].
Defined.

Lemma lock_clears_secrets_witness :
  SecureUnlock.invoke 1 SecureUnlock.Lock sampleUnlocked =
  Some (SecureUnlock.mkRun (Returned SecureUnlock.Void)
          (SecureUnlock.mkHook SecureUnlock.locked None false 5 (Some true)
             None None false)
          []).
Proof.
  apply (lock_clears_secrets string nat 1 sampleUnlocked SecureUnlock.pin
           "agent" eq_refl).
Defined.

Lemma setup_outcomes_witness :
  SecureUnlock.invoke 1
    (SecureUnlock.Setup "1234" (Returned tt)
       (Threw (SecureUnlock.Error "derivation failed")))
    sampleNotConfigured =
  Some (SecureUnlock.mkRun (Threw (SecureUnlock.Error "derivation failed"))
          sampleNotConfigured
          [SecureUnlock.createAndStoreSalt true 1;
           SecureUnlock.getWalletKeyUsingPin "1234" 1]).
Proof.
  apply (proj1 (proj2 (setup_outcomes string nat 1 sampleNotConfigured "1234"
                         eq_refl))).
Defined.

Lemma queryFn_outcomes_witness :
  exists r,
    SecureUnlock.step 1
      (SecureUnlock.RunQuery (Returned (Str "")) (Returned false))
      (SecureUnlock.useStateInitial (Context:=string)) = Some r
    /\ SecureUnlock.state (SecureUnlock.cells r) = SecureUnlock.not_configured
    /\ SecureUnlock.canTryUnlockingUsingBiometrics (SecureUnlock.cells r)
       = false.
Proof.
  destruct (proj2 (queryFn_outcomes string nat 1 SecureUnlock.useStateInitial
                     (Returned (Str "")) (Returned false)) eq_refl)
    as (r & Hstep & _ & Hcells & _).
  exists r. split; [exact Hstep|]. rewrite Hcells. split; reflexivity.
Defined.

Lemma biometric_unlock_succeeds_witness :
  SecureUnlock.invoke 1
    (SecureUnlock.TryUnlockingUsingBiometrics (Returned (Str "3f9a")))
    sampleLockedLater =
  Some (SecureUnlock.mkRun (Returned (SecureUnlock.Key (Str "3f9a")))
          (SecureUnlock.mkHook SecureUnlock.acquired_wallet_key (Some "3f9a")
             true 3 (Some true) (Some SecureUnlock.biometrics) None false)
          [SecureUnlock.getWalletKeyUsingBiometrics 1]).
Proof.
  apply (biometric_unlock_succeeds string nat 1 sampleLockedLater "3f9a");
    [reflexivity|reflexivity|discriminate].
Defined.

Lemma biometric_empty_key_stays_locked_witness :
  SecureUnlock.invoke 1
    (SecureUnlock.TryUnlockingUsingBiometrics (Returned (Str "")))
    sampleLockedLater =
  Some (SecureUnlock.mkRun (Returned (SecureUnlock.Key (Str "")))
          (SecureUnlock.mkHook SecureUnlock.locked None true 3 (Some true)
             None None false)
          [SecureUnlock.getWalletKeyUsingBiometrics 1]).
Proof.
  apply (biometric_empty_key_stays_locked string nat 1 sampleLockedLater);
    reflexivity.
Defined.

Lemma revoked_attempt_is_noop_witness :
  SecureUnlock.invoke 1
    (SecureUnlock.TryUnlockingUsingBiometrics (Returned (Str "3f9a")))
    sampleRevoked =
  Some (SecureUnlock.mkRun (Returned (SecureUnlock.Key Null)) sampleRevoked []).
Proof.
  apply (revoked_attempt_is_noop string nat 1 sampleRevoked); reflexivity.
Defined.

Lemma biometric_attempt_never_throws_witness :
  exists v,
    SecureUnlock.completion
      (SecureUnlock.resolving SecureUnlock.Key
         (SecureUnlock.tryUnlockingUsingBiometrics 1 sampleLocked
            (Threw (SecureUnlock.Error "keychain unavailable")))
         sampleLocked)
    = Returned (SecureUnlock.Key v)
    /\ (v = Null
        \/ Threw (SecureUnlock.Error "keychain unavailable") = Returned v).
Proof.
  apply (biometric_attempt_never_throws string nat 1 sampleLocked
           (Threw (SecureUnlock.Error "keychain unavailable"))).
  reflexivity.
Defined.

Lemma state_transitions_witness :
  exists r,
    SecureUnlock.step 1
      (SecureUnlock.Invoke
         (SecureUnlock.SetWalletKeyValid "agent" false (Returned tt)))
      sampleAcquired = Some r
    /\ SecureUnlock.state (SecureUnlock.cells r) = SecureUnlock.unlocked
    /\ SecureUnlock.state sampleAcquired = SecureUnlock.acquired_wallet_key.
Proof.
  eexists. split; [reflexivity|]. split; [reflexivity|].
  exact (proj1 (state_transitions string nat 1
                  (SecureUnlock.Invoke
                     (SecureUnlock.SetWalletKeyValid "agent" false (Returned tt)))
                  sampleAcquired _ eq_refl)).
Defined.

Lemma reachable_cells_consistent_witness :
  SecureUnlock.consistent
    (SecureUnlock.mkHook SecureUnlock.acquired_wallet_key (Some "3f9a") true 0
       (Some true) (Some SecureUnlock.pin) None false
     : SecureUnlock.HookState string).
Proof.
  apply (reachable_cells_consistent string nat 1
           [SecureUnlock.RunQuery (Returned (Str "salt")) (Returned true);
            SecureUnlock.Invoke
              (SecureUnlock.UnlockUsingPin "1234" (Returned "3f9a"))]
           _ [SecureUnlock.getSalt 1; SecureUnlock.canUseBiometryBackedWalletKey;
              SecureUnlock.getWalletKeyUsingPin "1234" 1]).
  - repeat constructor. cbn. discriminate.
  - reflexivity.
Defined.

Lemma counter_moves_only_on_attempts_witness :
  exists r,
    SecureUnlock.step 1
      (SecureUnlock.Invoke
         (SecureUnlock.UnlockUsingPin "0000"
            (Threw (SecureUnlock.Error "invalid pin"))))
      sampleLockedLater = Some r
    /\ (SecureUnlock.biometricsUnlockAttempts (SecureUnlock.cells r) = 2
        \/ SecureUnlock.biometricsUnlockAttempts (SecureUnlock.cells r) = 3).
Proof.
  eexists. split; [reflexivity|].
  destruct (counter_moves_only_on_attempts string nat 1
              (SecureUnlock.Invoke
                 (SecureUnlock.UnlockUsingPin "0000"
                    (Threw (SecureUnlock.Error "invalid pin"))))
              sampleLockedLater _ eq_refl) as [H|[H _]];
    [discriminate|left; exact H|right; exact H].
Defined.

Lemma callbacks_leave_canUseBiometrics_witness :
  exists r,
    SecureUnlock.invoke 1
      (SecureUnlock.TryUnlockingUsingBiometrics
         (Threw (SecureUnlock.KeychainError "userCancelled")))
      sampleLocked = Some r
    /\ SecureUnlock.canUseBiometrics (SecureUnlock.cells r) = Some true.
Proof.
  eexists. split; [reflexivity|].
  apply (callbacks_leave_canUseBiometrics string nat 1
           (SecureUnlock.TryUnlockingUsingBiometrics
              (Threw (SecureUnlock.KeychainError "userCancelled")))
           sampleLocked _ eq_refl).
  discriminate.
Defined.

Lemma revocation_lasts_until_reinitialize_witness :
  SecureUnlock.state
    (SecureUnlock.mkHook SecureUnlock.acquired_wallet_key (Some "3f9a") false 5
       (Some true) (Some SecureUnlock.pin) None false
     : SecureUnlock.HookState string) <> SecureUnlock.initializing
  /\ SecureUnlock.canTryUnlockingUsingBiometrics
       (SecureUnlock.mkHook SecureUnlock.acquired_wallet_key (Some "3f9a") false
          5 (Some true) (Some SecureUnlock.pin) None false
        : SecureUnlock.HookState string) = false.
Proof.
  apply (revocation_lasts_until_reinitialize string nat 1
           [SecureUnlock.Invoke
              (SecureUnlock.UnlockUsingPin "1234" (Returned "3f9a"))]
           sampleRevoked _ [SecureUnlock.getWalletKeyUsingPin "1234" 1]);
    [discriminate|reflexivity| |reflexivity].
  intros [H|[]]. discriminate.
Defined.

Lemma rejected_attempts_threshold_witness :
  exists s' calls,
    SecureUnlock.run 1 (map SecureUnlock.failedAttempt sampleRejections)
      sampleLockedLater = Some (s', calls)
    /\ SecureUnlock.state s' = SecureUnlock.locked
    /\ (SecureUnlock.canTryUnlockingUsingBiometrics s' = true <-> 2 + 4 <= 4).
Proof.
  apply (rejected_attempts_threshold string nat 1 sampleRejections
           sampleLockedLater);
    [reflexivity|reflexivity|repeat constructor|discriminate].
Defined.

Lemma rejected_biometric_key_stops_prompts_witness :
  exists s',
    SecureUnlock.run 1
      [SecureUnlock.Invoke SecureUnlock.SetWalletKeyInvalid;
       SecureUnlock.Invoke
         (SecureUnlock.TryUnlockingUsingBiometrics (Returned (Str "3f9a")))]
      sampleAcquired = Some (s', [])
    /\ SecureUnlock.state s' = SecureUnlock.locked
    /\ SecureUnlock.walletKey s' = None
    /\ SecureUnlock.canTryUnlockingUsingBiometrics s' = false.
Proof.
  apply (rejected_biometric_key_stops_prompts string nat 1 sampleAcquired
           "3f9a" (Returned (Str "3f9a")) eq_refl).
Defined.

Lemma reinitialize_then_query_restores_witness :
  SecureUnlock.run 1
    [SecureUnlock.Invoke SecureUnlock.Reinitialize;
     SecureUnlock.RunQuery (Returned (Str "salt")) (Returned true)]
    sampleRevoked
  = Some (SecureUnlock.mkHook SecureUnlock.locked None true 0 (Some true)
            None None false,
          [SecureUnlock.getSalt 1; SecureUnlock.canUseBiometryBackedWalletKey]).
Proof.
  apply (reinitialize_then_query_restores string nat 1 sampleRevoked
           (SecureUnlock.ReturnLocked false false) (Str "salt") true eq_refl).
  discriminate.
Defined.

(** C8, as stated, fails while the hook is initializing: the object
    returned for ['initializing'] carries only the state tag, so
    [reinitialize] cannot be called there. *)
Lemma reinitialize_missing_while_initializing :
  SecureUnlock._useSecureUnlockState (SecureUnlock.useStateInitial (Context:=string))
    = Returned SecureUnlock.ReturnInitializing
  /\ SecureUnlock.invoke 1 SecureUnlock.Reinitialize
       (SecureUnlock.useStateInitial (Context:=string)) = None.
Proof. split; reflexivity. Qed.

(** * Properties of the issuance flow *)
Section ReceivePidProperties.

Import ReceivePid.

Variables (AccessToken : Type) (CLIENT_ID : string).
Implicit Types (this : FlowInstance AccessToken) (receive : Client AccessToken).

Local Abbreviation requestOf := (receiveRequest CLIENT_ID).

(** The type check passes exactly on lists without a record of an
    unexpected type. *)
Lemma checkRecordTypes_expected (records : list CredentialRecord) :
  Forall (fun r => unexpectedType r = false) records ->
  checkRecordTypes records = Returned tt.
Proof.
  induction 1 as [|r rs Hr _ IH]; cbn [checkRecordTypes]; [reflexivity|].
  now rewrite Hr.
Qed.

(** On a list with a record of an unexpected type the check throws, naming
    the type of the first such record. *)
Lemma checkRecordTypes_unexpected (records : list CredentialRecord) :
  Exists (fun r => unexpectedType r = true) records ->
  exists bad,
    In bad records
    /\ unexpectedType bad = true
    /\ checkRecordTypes records =
         Threw (Error ("Unexpected record type " ++ type bad)%string).
Proof.
  induction records as [|r rs IH]; intros Hex; [inversion Hex|].
  cbn [checkRecordTypes]. destruct (unexpectedType r) eqn:Hr.
  - exists r. repeat split; trivial. now left.
  - inversion Hex as [? ? Hbad|? ? Hrest]; subst; [congruence|].
    destruct (IH Hrest) as (bad & Hin & Hbad & Hcheck).
    exists bad. repeat split; trivial. now right.
Qed.

(** The [try] block once the phase check and the token check have passed. *)
Lemma retrieveCredentialsTry_in_phase receive this token :
  currentState this = retrieve_credential ->
  accessToken this = Some token ->
  retrieveCredentialsTry CLIENT_ID receive this =
    match receive (requestOf this token) with
    | Returned records =>
        match checkRecordTypes records with
        | Returned _ => Returned records
        | Threw err => Threw err
        end
    | Threw err => Threw err
    end.
Proof.
  intros Hst Htok. unfold retrieveCredentialsTry, assertState.
  rewrite Hst, Htok. reflexivity.
Qed.

(** C2: in ['retrieve-credential'] with an access token, when the protocol
    client throws a [BiometricAuthenticationError], [retrieveCredentials]
    throws that same error and the flow instance is exactly as before (its
    phase is not the error phase, its token is still there), whatever
    [handleError] would do; a later call on it in which the client answers
    with records of the expected types is sent the same request and
    returns those records. *)
Theorem biometric_error_is_recoverable
    (onError : JsError -> FlowInstance AccessToken -> FlowInstance AccessToken)
    receive this (token : AccessToken) :
  currentState this = retrieve_credential ->
  accessToken this = Some token ->
  receive (requestOf this token) = Threw BiometricAuthenticationError ->
  retrieveCredentialsWith CLIENT_ID onError receive this
    = (Threw BiometricAuthenticationError, this)
  /\ retrieveCredentials CLIENT_ID receive this
    = (Threw BiometricAuthenticationError, this)
  /\ forall (retry : Client AccessToken) records,
       retry (requestOf this token) = Returned records ->
       Forall (fun r => unexpectedType r = false) records ->
       retrieveCredentials CLIENT_ID retry
         (snd (retrieveCredentials CLIENT_ID receive this))
       = (Returned records, this).
Proof.
  intros Hst Htok Hthrow.
  assert (Hwith : forall onError',
             retrieveCredentialsWith CLIENT_ID onError' receive this
             = (Threw BiometricAuthenticationError, this)).
  { intros onError'. unfold retrieveCredentialsWith.
    rewrite (retrieveCredentialsTry_in_phase _ _ _ Hst Htok), Hthrow.
    reflexivity. }
  split; [apply Hwith|]. split; [apply Hwith|].
  intros retry records Hretry Hok.
  unfold retrieveCredentials at 2. rewrite Hwith. cbn [snd].
  unfold retrieveCredentials, retrieveCredentialsWith.
  rewrite (retrieveCredentialsTry_in_phase _ _ _ Hst Htok), Hretry.
  now rewrite (checkRecordTypes_expected _ Hok).
Qed.

(** C3: in ['retrieve-credential'] with an access token, when the protocol
    client returns records one of which has a type that is neither
    ['SdJwtVcRecord'] nor ['MdocRecord'], [retrieveCredentials] throws an
    error naming the first such type, after passing it to [handleError];
    with [handleError] as the specification describes it, the flow is then
    in the error phase. *)
Theorem unexpected_record_type_is_fatal
    (onError : JsError -> FlowInstance AccessToken -> FlowInstance AccessToken)
    receive this (token : AccessToken) records :
  currentState this = retrieve_credential ->
  accessToken this = Some token ->
  receive (requestOf this token) = Returned records ->
  Exists (fun r => unexpectedType r = true) records ->
  exists bad,
    In bad records
    /\ unexpectedType bad = true
    /\ let err := Error ("Unexpected record type " ++ type bad)%string in
       retrieveCredentialsWith CLIENT_ID onError receive this
         = (Threw err, onError err this)
       /\ retrieveCredentials CLIENT_ID receive this
         = (Threw err, handleError err this)
       /\ currentState (snd (retrieveCredentials CLIENT_ID receive this))
         = error.
Proof.
  intros Hst Htok Hret Hex.
  destruct (checkRecordTypes_unexpected records Hex) as (bad & Hin & Hbad & Hcheck).
  exists bad. split; [exact Hin|]. split; [exact Hbad|]. cbn zeta.
  assert (Hwith : forall onError',
             retrieveCredentialsWith CLIENT_ID onError' receive this
             = (Threw (Error ("Unexpected record type " ++ type bad)%string),
                onError' (Error ("Unexpected record type " ++ type bad)%string)
                  this)).
  { intros onError'. unfold retrieveCredentialsWith.
    rewrite (retrieveCredentialsTry_in_phase _ _ _ Hst Htok), Hret, Hcheck.
    reflexivity. }
  split; [apply Hwith|]. split; [apply Hwith|].
  unfold retrieveCredentials. rewrite Hwith. reflexivity.
Qed.

(** ** Further properties of [retrieveCredentials] *)

Lemma unexpectedType_false (r : CredentialRecord) :
  unexpectedType r = false <->
  type r = "SdJwtVcRecord" \/ type r = "MdocRecord".
Proof.
  unfold unexpectedType.
  destruct (type r =? "SdJwtVcRecord")%string eqn:Hsd;
    destruct (type r =? "MdocRecord")%string eqn:Hmd; cbn;
    rewrite ?String.eqb_eq, ?String.eqb_neq in *; intuition congruence.
Qed.

(** X17: the type check over the returned records succeeds exactly when
    every record is an ['SdJwtVcRecord'] or an ['MdocRecord']; in
    particular it succeeds on the empty list. *)
Theorem checkRecordTypes_iff (records : list CredentialRecord) :
  checkRecordTypes records = Returned tt <->
  Forall (fun r => type r = "SdJwtVcRecord" \/ type r = "MdocRecord") records.
Proof.
  induction records as [|r rs IH]; cbn [checkRecordTypes].
  - split; [constructor|reflexivity].
  - destruct (unexpectedType r) eqn:Hr.
    + split; [discriminate|]. intros Hall. inversion Hall as [|? ? Hok _]; subst.
      apply unexpectedType_false in Hok. congruence.
    + rewrite IH. split.
      * intros Hall. constructor; [now apply unexpectedType_false|exact Hall].
      * intros Hall. now inversion Hall.
Qed.

(** X18: whatever the flow and the client, if [retrieveCredentials] returns
    records then the flow was in ['retrieve-credential'] with an access
    token, every returned record is an ['SdJwtVcRecord'] or an
    ['MdocRecord'], the records are the client's answer to the request
    built from the flow, the error handler was not run and the flow
    instance is unchanged. *)
Theorem returned_records_are_checked
    (onError : JsError -> FlowInstance AccessToken -> FlowInstance AccessToken)
    receive this records this' :
  retrieveCredentialsWith CLIENT_ID onError receive this
    = (Returned records, this') ->
  this' = this
  /\ currentState this = retrieve_credential
  /\ (exists token,
        accessToken this = Some token
        /\ receive (requestOf this token) = Returned records)
  /\ Forall (fun r => type r = "SdJwtVcRecord" \/ type r = "MdocRecord")
       records.
Proof.
  unfold retrieveCredentialsWith, retrieveCredentialsTry, assertState.
  destruct (currentState this) eqn:Hst; cbn [sameState andThen];
    try (destruct (isBiometricAuthenticationError _); discriminate).
  destruct (accessToken this) as [token|] eqn:Htok;
    [|cbn; discriminate].
  destruct (receive (receiveRequest CLIENT_ID this token)) as [rs|err] eqn:Hrec;
    cbn [andThen]; [|destruct (isBiometricAuthenticationError err); discriminate].
  destruct (checkRecordTypes rs) as [[]|err] eqn:Hcheck; cbn [andThen];
    [|destruct (isBiometricAuthenticationError err); discriminate].
  intros [= <- <-]. repeat split.
  - exists token. split; [reflexivity|exact Hrec].
  - now apply checkRecordTypes_iff.
Qed.

(** X19: in ['retrieve-credential'] with an access token, an error of the
    protocol client other than a [BiometricAuthenticationError] is handed
    to [handleError] and then thrown again unchanged; the flow afterwards
    is whatever [handleError] made of it. *)
Theorem client_error_is_handled_and_rethrown
    (onError : JsError -> FlowInstance AccessToken -> FlowInstance AccessToken)
    receive this (token : AccessToken) (message : string) :
  currentState this = retrieve_credential ->
  accessToken this = Some token ->
  receive (requestOf this token) = Threw (Error message) ->
  retrieveCredentialsWith CLIENT_ID onError receive this
    = (Threw (Error message), onError (Error message) this).
Proof.
  intros Hst Htok Hthrow. unfold retrieveCredentialsWith.
  rewrite (retrieveCredentialsTry_in_phase _ _ _ Hst Htok), Hthrow.
  reflexivity.
Qed.

(** X20: in ['retrieve-credential'] without an access token the call
    throws ['Expected accessToken be defined in state
    retrieve-credential'] after handing that error to [handleError]; the
    result is the same for every protocol client, which is never asked. *)
Theorem missing_access_token_is_fatal
    (onError : JsError -> FlowInstance AccessToken -> FlowInstance AccessToken)
    receive this :
  currentState this = retrieve_credential ->
  accessToken this = None ->
  let err :=
    Error "Expected accessToken be defined in state retrieve-credential" in
  retrieveCredentialsWith CLIENT_ID onError receive this
    = (Threw err, onError err this).
Proof.
  intros Hst Htok. unfold retrieveCredentialsWith, retrieveCredentialsTry,
    assertState.
  rewrite Hst, Htok. reflexivity.
Qed.

End ReceivePidProperties.

Lemma biometric_error_is_recoverable_witness :
  ReceivePid.retrieveCredentials "wallet"
    (fun _ => Threw ReceivePid.BiometricAuthenticationError) sampleFlow
  = (Threw ReceivePid.BiometricAuthenticationError, sampleFlow).
Proof.
  apply (biometric_error_is_recoverable nat "wallet"
           (fun _ this => this)
           (fun _ => Threw ReceivePid.BiometricAuthenticationError)
           sampleFlow 7 eq_refl eq_refl eq_refl).
Defined.

Lemma unexpected_record_type_is_fatal_witness :
  exists bad,
    In bad sampleBadRecords
    /\ ReceivePid.currentState
         (snd (ReceivePid.retrieveCredentials "wallet"
                 (fun _ => Returned sampleBadRecords) sampleFlow))
       = ReceivePid.error.
Proof.
  destruct (unexpected_record_type_is_fatal nat "wallet"
              (fun _ this => this) (fun _ => Returned sampleBadRecords)
              sampleFlow 7 sampleBadRecords eq_refl eq_refl eq_refl)
    as (bad & Hin & _ & _ & _ & Hst).
  - right. left. reflexivity.
  - exists bad. split; assumption.
Defined.

Lemma returned_records_are_checked_witness :
  Forall (fun r => ReceivePid.type r = "SdJwtVcRecord"
                   \/ ReceivePid.type r = "MdocRecord") sampleRecords.
Proof.
  apply (returned_records_are_checked nat "wallet" (fun _ this => this)
           (fun _ => Returned sampleRecords) sampleFlow sampleRecords
           sampleFlow eq_refl).
Defined.

Lemma client_error_is_handled_and_rethrown_witness :
  ReceivePid.retrieveCredentialsWith "wallet" ReceivePid.handleError
    (fun _ => Threw (ReceivePid.Error "network down")) sampleFlow
  = (Threw (ReceivePid.Error "network down"),
     ReceivePid.handleError (ReceivePid.Error "network down") sampleFlow).
Proof.
  apply (client_error_is_handled_and_rethrown nat "wallet"
           ReceivePid.handleError
           (fun _ => Threw (ReceivePid.Error "network down"))
           sampleFlow 7 "network down" eq_refl eq_refl eq_refl).
Defined.

Lemma missing_access_token_is_fatal_witness :
  ReceivePid.retrieveCredentialsWith "wallet" ReceivePid.handleError
    (fun _ => Returned sampleRecords)
    (ReceivePid.mkFlow ReceivePid.retrieve_credential (@None nat)
       (ReceivePid.mkOffer []))
  = (Threw (ReceivePid.Error
              "Expected accessToken be defined in state retrieve-credential"),
     ReceivePid.handleError
       (ReceivePid.Error
          "Expected accessToken be defined in state retrieve-credential")
       (ReceivePid.mkFlow ReceivePid.retrieve_credential (@None nat)
          (ReceivePid.mkOffer []))).
Proof.
  apply (missing_access_token_is_fatal nat "wallet" ReceivePid.handleError
           (fun _ => Returned sampleRecords)
           (ReceivePid.mkFlow ReceivePid.retrieve_credential (@None nat)
              (ReceivePid.mkOffer []))
           eq_refl eq_refl).
Defined.
